(** * trustbloc-did-method: the DID client of [pkg/did/client.go]

    A shallow embedding of the request-building pipeline of the client
    (option validation, endpoint resolution, signer dispatch, patch
    assembly, unique-suffix extraction, default reveal value) and the
    properties the specification states about it.

    Go strings are byte strings and are modelled by [string]; a Go
    [error] is modelled by its message; [(T, error)] results by [result];
    functions of other packages are fields of the class [Externals]. *)

From Stdlib Require Import String Ascii List ZArith Lia Bool DecimalString.
Import ListNotations.
Local Open Scope string_scope.
Local Open Scope Z_scope.

Set Implicit Arguments.

(** ** Errors and results *)

(** A Go [error], identified with the text of [err.Error()]. *)
Definition error := string.

Inductive result (A : Type) : Type :=
| Ok (a : A)
| Err (e : error).
Arguments Ok {A} a.
Arguments Err {A} e.

Definition rbind {A B} (r : result A) (k : A -> result B) : result B :=
  match r with
  | Ok a => k a
  | Err e => Err e
  end.

(** [fmt.Errorf(prefix + "%w", err)] and [fmt.Errorf(prefix + "%s", err)]:
    both print the wrapped error's message after the prefix. *)
Definition wrapErr {A} (prefix : string) (r : result A) : result A :=
  match r with
  | Ok a => Ok a
  | Err e => Err (prefix ++ e)
  end.

Declare Scope result_scope.
Delimit Scope result_scope with result.
Notation "x <- c ;; k" := (rbind c (fun x => k))
  (at level 61, c at next level, right associativity) : result_scope.
Notation "' p <- c ;; k" := (rbind c (fun x => match x with p => k end))
  (at level 61, p pattern, c at next level, right associativity) : result_scope.

(** ** The part of package [strings] the client uses *)

Module strings.

(** The loop of [strings.LastIndexByte]:
    [for i := n - 1; i >= 0; i-- { if s[i] == c { return i } }; return -1]. *)
Fixpoint lastIndexFrom (s : string) (c : ascii) (n : nat) : Z :=
  match n with
  | O => -1
  | S i =>
      match get i s with
      | Some a => if Ascii.eqb a c then Z.of_nat i else lastIndexFrom s c i
      | None => lastIndexFrom s c i
      end
  end.

Definition LastIndexByte (s : string) (c : ascii) : Z :=
  lastIndexFrom s c (String.length s).

(** [s[lo:]] for [0 <= lo <= len(s)]. *)
Definition sliceFrom (s : string) (lo : Z) : string :=
  substring (Z.to_nat lo) (String.length s - Z.to_nat lo) s.

(** [strings.Contains]. *)
Fixpoint Contains (s sub : string) : bool :=
  if prefix sub s then true
  else match s with
       | EmptyString => false
       | String _ s' => Contains s' sub
       end.

(** No byte of [s] is [c]. *)
Fixpoint lacks (c : ascii) (s : string) : bool :=
  match s with
  | EmptyString => true
  | String a s' => negb (Ascii.eqb a c) && lacks c s'
  end.

End strings.

Definition colon : ascii := ":"%char.

(** ** [getUniqueSuffix] (client.go, 353-360)

    [strings.LastIndex(id, ":")] with a one-byte separator is
    [strings.LastIndexByte]. *)

Definition getUniqueSuffix (id : string) : result string :=
  let p := strings.LastIndexByte id colon in
  if p =? -1 then
    Err ("unique suffix not provided in id [" ++ id ++ "]")
  else
    Ok (strings.sliceFrom id (p + 1)).


(** ** Data of the collaborating packages

    Only what client.go reads or builds is kept; a nil interface value or
    nil pointer the code tests for is [None]. *)

Module ecdsa.
Inductive Curve := P224 | P256 | P384 | P521.
Record PublicKey := { Curve_ : Curve; X : option Z; Y : option Z }.
Record PrivateKey := { PublicKey_ : PublicKey; D : Z }.
(** [func (priv *PrivateKey) Public() crypto.PublicKey]. *)
Definition Public (priv : PrivateKey) : PublicKey := PublicKey_ priv.
End ecdsa.

Module crypto.
(** The dynamic type of a non-nil [crypto.PublicKey] value. *)
Inductive PublicKey :=
| ECDSAPublicKey (k : ecdsa.PublicKey)       (* *ecdsa.PublicKey *)
| Ed25519PublicKey (k : string)              (* ed25519.PublicKey *)
| OtherPublicKey (goType : string).          (* any other type *)
(** The dynamic type of a non-nil [crypto.PrivateKey] value. *)
Inductive PrivateKey :=
| ECDSAPrivateKey (k : ecdsa.PrivateKey)     (* *ecdsa.PrivateKey *)
| Ed25519PrivateKey (k : string)             (* ed25519.PrivateKey *)
| OtherPrivateKey (goType : string).         (* any other type *)
End crypto.

Module jws.
Record JWK := { Kty : string; Crv : string; X : string; Y : string }.
End jws.

Module jose.
Inductive KeyMaterial :=
| Public (k : crypto.PublicKey)
| Private (k : crypto.PrivateKey)
| Symmetric (k : string).
Record JSONWebKey := { Key : option KeyMaterial; KeyID : string }.
End jose.

Module models.
Record Endpoint := { URL : string }.
Record SidetreeConfig := { MultiHashAlgorithm : N }.
End models.

Module docdid.
Record Service := { ID : string; Type_ : string; ServiceEndpoint : string }.
End docdid.

Module doc.
(** Modelled from the spec: the declaration of [doc.PublicKey] is not
    among the sources; a public key "carries an identifier, a type tag,
    and boolean role flags (used for recovery, used for update)" next
    to its value. *)
Record PublicKey := {
  ID : string;
  Type_ : string;
  Recovery : bool;
  Update : bool;
  Value : string
}.
Definition withValue (v : string) (pk : PublicKey) : PublicKey :=
  {| ID := ID pk; Type_ := Type_ pk; Recovery := Recovery pk;
     Update := Update pk; Value := v |}.
(** [doc.Doc], with the two fields [buildRecoverRequest] fills. *)
Record Doc := { PublicKey_ : list PublicKey; Service : list docdid.Service }.
(** An entry of the raw (map) form produced by [PopulateRaw...]. *)
Definition Raw := list (string * string).
End doc.

Module patch.
Inductive Action :=
| RemovePublicKeys | RemoveServiceEndpoints
| AddServiceEndpoints | AddPublicKeys.
(** A patch as its constructor leaves it: the action it was built for
    and the content the constructor accepted. *)
Record Patch := { action : Action; content : string }.
End patch.

Module client.
(** [client.Signer], as built by [ecsigner.New] or [edsigner.New]. *)
Inductive Signer :=
| ecsigner_New (key : ecdsa.PrivateKey) (alg kid : string)
| edsigner_New (key : string) (alg kid : string).
Definition alg (s : Signer) : string :=
  match s with
  | ecsigner_New _ a _ => a
  | edsigner_New _ a _ => a
  end.
Definition kid (s : Signer) : string :=
  match s with
  | ecsigner_New _ _ k => k
  | edsigner_New _ _ k => k
  end.
Record UpdateRequestInfo := {
  u_DidSuffix : string;
  u_RevealValue : string;
  u_UpdateCommitment : string;
  u_UpdateKey : jws.JWK;
  u_Patches : list patch.Patch;
  u_MultihashCode : N;
  u_Signer : Signer
}.
Record RecoverRequestInfo := {
  r_DidSuffix : string;
  r_RevealValue : string;
  r_OpaqueDocument : string;
  r_RecoveryCommitment : string;
  r_UpdateCommitment : string;
  r_MultihashCode : N;
  r_Signer : Signer;
  r_RecoveryKey : jws.JWK
}.
Record DeactivateRequestInfo := {
  d_DidSuffix : string;
  d_RevealValue : string;
  d_RecoveryKey : jws.JWK;
  d_Signer : Signer
}.
End client.

(** ** Options of the three operations

    The fields client.go reads from [update.Opts], [recovery.Opts] and
    [deactivate.Opts]; an operation receives functional options and
    applies them in order to the zero value. *)

Module update.
Record Opts := {
  SigningKey : option crypto.PrivateKey;
  SigningKeyID : string;
  NextUpdatePublicKey : option crypto.PublicKey;
  SidetreeEndpoints : list models.Endpoint;
  RevealValue : string;
  RemovePublicKeys : list string;
  RemoveServices : list string;
  AddServices : list docdid.Service;
  AddPublicKeys : list doc.PublicKey
}.
Definition zero : Opts :=
  {| SigningKey := None; SigningKeyID := ""; NextUpdatePublicKey := None;
     SidetreeEndpoints := []; RevealValue := ""; RemovePublicKeys := [];
     RemoveServices := []; AddServices := []; AddPublicKeys := [] |}.
Definition Option := Opts -> Opts.
End update.

Module recovery.
Record Opts := {
  NextRecoveryPublicKey : option crypto.PublicKey;
  NextUpdatePublicKey : option crypto.PublicKey;
  SigningKey : option crypto.PrivateKey;
  SigningKeyID : string;
  SidetreeEndpoints : list models.Endpoint;
  RevealValue : string;
  PublicKeys : list doc.PublicKey;
  Services : list docdid.Service
}.
Definition zero : Opts :=
  {| NextRecoveryPublicKey := None; NextUpdatePublicKey := None;
     SigningKey := None; SigningKeyID := ""; SidetreeEndpoints := [];
     RevealValue := ""; PublicKeys := []; Services := [] |}.
Definition Option := Opts -> Opts.
End recovery.

Module deactivate.
Record Opts := {
  SigningKey : option crypto.PrivateKey;
  SigningKeyID : string;
  SidetreeEndpoints : list models.Endpoint;
  RevealValue : string
}.
Definition zero : Opts :=
  {| SigningKey := None; SigningKeyID := ""; SidetreeEndpoints := [];
     RevealValue := "" |}.
Definition Option := Opts -> Opts.
End deactivate.

(** [for _, opt := range opts { opt(o) }]. *)
Definition applyOptions {O} (zero : O) (opts : list (O -> O)) : O :=
  fold_left (fun o opt => opt o) opts zero.

(** ** HTTP *)

Module http.
Record Request := {
  Method : string;
  URL : string;
  Header : list (string * string);
  Body : string
}.
(** What [sendRequest] observes of a response: the status code, the
    outcome of reading the body and of closing it. *)
Record Response := {
  StatusCode : Z;
  ReadAll : result string;
  Close : option error
}.
Definition StatusOK : Z := 200.
(** [Header.Add]. *)
Definition addHeader (k v : string) (r : Request) : Request :=
  {| Method := Method r; URL := URL r;
     Header := Header r ++ [(k, v)]; Body := Body r |}.
(** [Header.Set]: the entries of the key are replaced. *)
Definition setHeader (k v : string) (r : Request) : Request :=
  {| Method := Method r; URL := URL r;
     Header := filter (fun kv => negb (String.eqb (fst kv) k)) (Header r)
                 ++ [(k, v)];
     Body := Body r |}.
End http.

(** ** Functions of other packages

    Each field is a function client.go calls and whose code lives in
    another package; exported names are kept, prefixed by the package. *)

Class Externals := {
  (* crypto/ed25519 *)
  ed25519_Public : string -> string;
  (* sidetree-core-go: pubkey, commitment, patch, client *)
  pubkey_GetPublicKeyJWK : option crypto.PublicKey -> result jws.JWK;
  commitment_GetCommitment : jws.JWK -> N -> result string;
  commitment_GetRevealValue : jws.JWK -> N -> result string;
  patch_accept : patch.Action -> string -> result string;
  client_NewUpdateRequest : client.UpdateRequestInfo -> result string;
  client_NewRecoverRequest : client.RecoverRequestInfo -> result string;
  client_NewDeactivateRequest : client.DeactivateRequestInfo -> result string;
  (* encoding/json *)
  json_Marshal_strings : list string -> result string;
  json_Marshal_raw : list doc.Raw -> result string;
  (* go-jose *)
  jose_UnmarshalJSON : string -> result jose.JSONWebKey;
  jose_Public : jose.JSONWebKey -> jose.JSONWebKey;
  (* pkg/did/doc *)
  doc_PopulateRawServices : list docdid.Service -> list doc.Raw;
  doc_PopulateRawPublicKeys : list doc.PublicKey -> result (list doc.Raw);
  doc_JSONBytes : doc.Doc -> result string;
  doc_publicValue : jose.JSONWebKey -> result string;
  (* net/http *)
  http_NewRequest : string -> string -> string -> result http.Request
}.

(** The two interfaces client.go declares. *)
Record endpointService := {
  GetEndpoints : string -> result (list models.Endpoint)
}.

Record configService := {
  GetSidetreeConfig : string -> result models.SidetreeConfig
}.

(** [Client]; [Do] stands for [c.client.Do]. *)
Record Client := {
  endpointService_ : endpointService;
  Do : http.Request -> result http.Response;
  authToken : string;
  configService_ : configService
}.

(** ** Effects: what a call leaves behind

    Calls that leave the process (discovery, config fetch, HTTP) and log
    lines are recorded, in order, next to the result. *)

Inductive Event :=
| LogError (msg : string)
| CallGetEndpoints (domain : string)
| CallGetSidetreeConfig (url : string)
| CallDo (req : http.Request).

Definition Eff (A : Type) : Type := (result A * list Event)%type.

Definition ret {A} (a : A) : Eff A := (Ok a, []).
Definition fail {A} (e : error) : Eff A := (Err e, []).
Definition lift {A} (r : result A) : Eff A := (r, []).
Definition emit (ev : Event) : Eff unit := (Ok tt, [ev]).

Definition ebind {A B} (m : Eff A) (k : A -> Eff B) : Eff B :=
  match fst m with
  | Ok a => (fst (k a), snd m ++ snd (k a))%list
  | Err e => (Err e, snd m)
  end.

Declare Scope eff_scope.
Delimit Scope eff_scope with eff.
Notation "x <- c ;; k" := (ebind c (fun x => k))
  (at level 61, c at next level, right associativity) : eff_scope.
Notation "' p <- c ;; k" := (ebind c (fun x => match x with p => k end))
  (at level 61, p pattern, c at next level, right associativity) : eff_scope.
Notation "c ;; k" := (ebind c (fun _ => k))
  (at level 61, right associativity) : eff_scope.

(** A call to a collaborator: recorded, then its result. *)
Definition call {A} (ev : Event) (r : result A) : Eff A :=
  (emit ev ;; lift r)%eff.

(** [defer f()] after [m]: [f] runs whether [m] returns an error or not. *)
Definition deferred {A} (m : Eff A) (f : list Event) : Eff A :=
  (fst m, snd m ++ f)%list.

Definition wrapEff {A} (prefix : string) (m : Eff A) : Eff A :=
  (wrapErr prefix (fst m), snd m).

(** A function that returns no error but may log. *)
Definition logged {A} (m : A * list Event) : Eff A := (Ok (fst m), snd m).

Definition isNil {A} (o : option A) : bool :=
  match o with
  | None => true
  | Some _ => false
  end.

(** [%d] of a status code. *)
Definition itoa (z : Z) : string := DecimalString.NilZero.string_of_int (Z.to_int z).

(** ** The client *)

Section ClientCode.

Context {ext : Externals}.

Local Open Scope result_scope.

(** *** The four constructors of package [patch]

    [patch_accept] is the validation a constructor applies to its
    argument; a patch it returns carries the constructor's action. *)

Definition NewPatch (a : patch.Action) (s : string) : result patch.Patch :=
  c <- patch_accept a s ;;
  Ok {| patch.action := a; patch.content := c |}.

Definition NewRemovePublicKeysPatch := NewPatch patch.RemovePublicKeys.
Definition NewRemoveServiceEndpointsPatch := NewPatch patch.RemoveServiceEndpoints.
Definition NewAddServiceEndpointsPatch := NewPatch patch.AddServiceEndpoints.
Definition NewAddPublicKeysPatch := NewPatch patch.AddPublicKeys.

(** Modelled from the spec: [doc.PublicKey.GetValueFromJWK] is not among
    the sources. "If its value is itself a JWK, the JWK's public value
    replaces the raw value"; [doc_publicValue] is the extraction of that
    value, which can fail. *)
Definition GetValueFromJWK (pk : doc.PublicKey) (jwk : jose.JSONWebKey)
  : result doc.PublicKey :=
  v <- doc_publicValue jwk ;;
  Ok (doc.withValue v pk).

(** *** [validateRecoverReq] (197-211) *)

Definition validateRecoverReq (recoverDIDOpts : recovery.Opts) : result unit :=
  if isNil (recovery.NextRecoveryPublicKey recoverDIDOpts) then
    Err "next recovery public key is required"
  else if isNil (recovery.NextUpdatePublicKey recoverDIDOpts) then
    Err "next update public key is required"
  else if isNil (recovery.SigningKey recoverDIDOpts) then
    Err "signing key is required"
  else Ok tt.

(** *** [unwrapPubKeyJWK] (239-256) *)

Definition unwrapPubKeyJWK (key : doc.PublicKey) : result doc.PublicKey :=
  let out := key in
  (* skip those that don't parse - expect them to be binary keys *)
  match jose_UnmarshalJSON (doc.Value out) with
  | Ok jwk =>
      let pub := jose_Public jwk in
      out' <- GetValueFromJWK out pub ;;
      Ok out'
  | Err _ => Ok out
  end.

(** *** [getSigner] (332-351) *)

Definition getSigner (signingkey : option crypto.PrivateKey) (keyID : string)
  : result (client.Signer * jws.JWK) :=
  match signingkey with
  | Some (crypto.ECDSAPrivateKey key) =>
      updateKey <- pubkey_GetPublicKeyJWK
                     (Some (crypto.ECDSAPublicKey (ecdsa.Public key))) ;;
      Ok (client.ecsigner_New key "ES256" keyID, updateKey)
  | Some (crypto.Ed25519PrivateKey key) =>
      updateKey <- pubkey_GetPublicKeyJWK
                     (Some (crypto.Ed25519PublicKey (ed25519_Public key))) ;;
      Ok (client.edsigner_New key "EdDSA" keyID, updateKey)
  | _ => Err "key not supported"
  end.

(** *** The patch builders (404-443) *)

Definition createRemovePublicKeysPatch (updateDIDOpts : update.Opts)
  : result patch.Patch :=
  removePubKeys <- json_Marshal_strings (update.RemovePublicKeys updateDIDOpts) ;;
  NewRemovePublicKeysPatch removePubKeys.

Definition createRemoveServicesPatch (updateDIDOpts : update.Opts)
  : result patch.Patch :=
  removeServices <- json_Marshal_strings (update.RemoveServices updateDIDOpts) ;;
  NewRemoveServiceEndpointsPatch removeServices.

Definition createAddServicesPatch (updateDIDOpts : update.Opts)
  : result patch.Patch :=
  addServices <- json_Marshal_raw
                   (doc_PopulateRawServices (update.AddServices updateDIDOpts)) ;;
  NewAddServiceEndpointsPatch addServices.

Definition createAddPublicKeysPatch (updateDIDOpts : update.Opts)
  : result patch.Patch :=
  rawPublicKeys <- doc_PopulateRawPublicKeys (update.AddPublicKeys updateDIDOpts) ;;
  addPublicKeys <- json_Marshal_raw rawPublicKeys ;;
  NewAddPublicKeysPatch addPublicKeys.

(** *** [createUpdatePatches] (362-402) *)

Definition createUpdatePatches (updateDIDOpts : update.Opts)
  : result (list patch.Patch) :=
  let patches := [] in
  patches <-
    (if negb (length (update.RemovePublicKeys updateDIDOpts) =? 0)%nat then
       p <- createRemovePublicKeysPatch updateDIDOpts ;;
       Ok (patches ++ [p])%list
     else Ok patches) ;;
  patches <-
    (if negb (length (update.RemoveServices updateDIDOpts) =? 0)%nat then
       p <- createRemoveServicesPatch updateDIDOpts ;;
       Ok (patches ++ [p])%list
     else Ok patches) ;;
  patches <-
    (if negb (length (update.AddServices updateDIDOpts) =? 0)%nat then
       p <- createAddServicesPatch updateDIDOpts ;;
       Ok (patches ++ [p])%list
     else Ok patches) ;;
  patches <-
    (if negb (length (update.AddPublicKeys updateDIDOpts) =? 0)%nat then
       p <- createAddPublicKeysPatch updateDIDOpts ;;
       Ok (patches ++ [p])%list
     else Ok patches) ;;
  Ok patches.

(** *** [getCommitment] (503-525) *)

Definition getCommitment (sidetreeConfig : models.SidetreeConfig)
    (recoverDIDOpts : recovery.Opts) : result (string * string) :=
  nextRecoveryKey <- wrapErr "failed to get next recovery key : "
      (pubkey_GetPublicKeyJWK (recovery.NextRecoveryPublicKey recoverDIDOpts)) ;;
  nextUpdateKey <- wrapErr "failed to get next update key : "
      (pubkey_GetPublicKeyJWK (recovery.NextUpdatePublicKey recoverDIDOpts)) ;;
  nextRecoveryCommitment <- commitment_GetCommitment nextRecoveryKey
      (models.MultiHashAlgorithm sidetreeConfig) ;;
  nextUpdateCommitment <- commitment_GetCommitment nextUpdateKey
      (models.MultiHashAlgorithm sidetreeConfig) ;;
  Ok (nextRecoveryCommitment, nextUpdateCommitment).

(** *** [defaultRevealValue] (566-574): a string, and what it logs *)

Definition defaultRevealValue (jwk : jws.JWK) (multihashCode : N)
  : string * list Event :=
  match commitment_GetRevealValue jwk multihashCode with
  | Err err => ("", [LogError ("Failed to default reveal value: " ++ err)])
  | Ok revealValue => (revealValue, [])
  end.

Local Open Scope eff_scope.

(** *** [getEndpoint] (213-235)

    The endpoints are pointers in the source and are taken to be non-nil.
    [endpoints[0]] on an empty list would be a run-time panic; it is
    rendered by the last error, which [getEndpoint_index_in_range]
    shows is never returned. *)

Definition getEndpoint (c : Client) (domain : string)
    (sidetreeEndpoints : list models.Endpoint) : Eff string :=
  if String.eqb domain "" && (length sidetreeEndpoints =? 0)%nat then
    fail "domain is empty and sidetree endpoints is empty"
  else
    endpoints <-
      (if negb (String.eqb domain "") then
         endpoints <- call (CallGetEndpoints domain)
                        (wrapErr "failed to get endpoints: "
                           (GetEndpoints (endpointService_ c) domain)) ;;
         if (length endpoints =? 0)%nat then
           fail "list of endpoints is empty"
         else ret endpoints
       else ret sidetreeEndpoints) ;;
    (* TODO change the logic of choosing first endpoints *)
    match endpoints with
    | e :: _ => ret (models.URL e)
    | [] => fail "runtime error: index out of range [0] with length 0"
    end.

(** *** [buildUpdateRequest] (259-302) *)

Definition buildUpdateRequest (did : string)
    (sidetreeConfig : models.SidetreeConfig) (updateDIDOpts : update.Opts)
  : Eff string :=
  nextUpdateKey <- lift (wrapErr "failed to get next update key : "
      (pubkey_GetPublicKeyJWK (update.NextUpdatePublicKey updateDIDOpts))) ;;
  nextUpdateCommitment <- lift (commitment_GetCommitment nextUpdateKey
      (models.MultiHashAlgorithm sidetreeConfig)) ;;
  '(signer, updateKey) <- lift (getSigner (update.SigningKey updateDIDOpts)
                                  (update.SigningKeyID updateDIDOpts)) ;;
  patches <- lift (createUpdatePatches updateDIDOpts) ;;
  didSuffix <- lift (getUniqueSuffix did) ;;
  let revealValue := update.RevealValue updateDIDOpts in
  revealValue <-
    (if String.eqb revealValue "" then
       logged (defaultRevealValue updateKey
                 (models.MultiHashAlgorithm sidetreeConfig))
     else ret revealValue) ;;
  lift (client_NewUpdateRequest
    {| client.u_DidSuffix := didSuffix;
       client.u_RevealValue := revealValue;
       client.u_UpdateCommitment := nextUpdateCommitment;
       client.u_UpdateKey := updateKey;
       client.u_Patches := patches;
       client.u_MultihashCode := models.MultiHashAlgorithm sidetreeConfig;
       client.u_Signer := signer |}).

(** *** [buildDeactivateRequest] (305-330) *)

Definition buildDeactivateRequest (did : string)
    (sidetreeConfig : models.SidetreeConfig)
    (deactivateDIDOpts : deactivate.Opts) : Eff string :=
  '(signer, publicKey) <- lift (getSigner
                                  (deactivate.SigningKey deactivateDIDOpts)
                                  (deactivate.SigningKeyID deactivateDIDOpts)) ;;
  didSuffix <- lift (getUniqueSuffix did) ;;
  let revealValue := deactivate.RevealValue deactivateDIDOpts in
  revealValue <-
    (if String.eqb revealValue "" then
       logged (defaultRevealValue publicKey
                 (models.MultiHashAlgorithm sidetreeConfig))
     else ret revealValue) ;;
  lift (client_NewDeactivateRequest
    {| client.d_DidSuffix := didSuffix;
       client.d_RevealValue := revealValue;
       client.d_RecoveryKey := publicKey;
       client.d_Signer := signer |}).

(** *** [buildRecoverRequest] (446-501) *)

(** The loop of lines 452-459, [parsedKeys] being the keys appended so
    far. *)
Fixpoint unwrapKeys (publicKeys parsedKeys : list doc.PublicKey)
  : result (list doc.PublicKey) :=
  match publicKeys with
  | [] => Ok parsedKeys
  | key :: rest =>
      match unwrapPubKeyJWK key with
      | Ok parsedKey => unwrapKeys rest (parsedKeys ++ [parsedKey])
      | Err err => Err err
      end
  end.

Definition buildRecoverRequest (did : string)
    (sidetreeConfig : models.SidetreeConfig) (recoverDIDOpts : recovery.Opts)
  : Eff string :=
  let publicKeys := recovery.PublicKeys recoverDIDOpts in
  parsedKeys <- lift (unwrapKeys publicKeys []) ;;
  let didDoc := {| doc.PublicKey_ := parsedKeys;
                   doc.Service := recovery.Services recoverDIDOpts |} in
  docBytes <- lift (wrapErr "failed to get document bytes : "
                      (doc_JSONBytes didDoc)) ;;
  '(nextRecoveryCommitment, nextUpdateCommitment) <-
      lift (getCommitment sidetreeConfig recoverDIDOpts) ;;
  '(signer, recoveryKey) <- lift (getSigner
                                    (recovery.SigningKey recoverDIDOpts)
                                    (recovery.SigningKeyID recoverDIDOpts)) ;;
  didSuffix <- lift (getUniqueSuffix did) ;;
  let revealValue := recovery.RevealValue recoverDIDOpts in
  revealValue <-
    (if String.eqb revealValue "" then
       logged (defaultRevealValue recoveryKey
                 (models.MultiHashAlgorithm sidetreeConfig))
     else ret revealValue) ;;
  req <- lift (wrapErr "failed to create sidetree request: "
    (client_NewRecoverRequest
      {| client.r_DidSuffix := didSuffix;
         client.r_RevealValue := revealValue;
         client.r_OpaqueDocument := docBytes;
         client.r_RecoveryCommitment := nextRecoveryCommitment;
         client.r_UpdateCommitment := nextUpdateCommitment;
         client.r_MultihashCode := models.MultiHashAlgorithm sidetreeConfig;
         client.r_Signer := signer;
         client.r_RecoveryKey := recoveryKey |})) ;;
  ret req.

(** *** [sendRequest] and [closeResponseBody] (527-564) *)

Definition closeResponseBody (resp : http.Response) : list Event :=
  match http.Close resp with
  | Some e => [LogError ("Failed to close response body: " ++ e)]
  | None => []
  end.

Definition sendRequest (c : Client) (req endpointURL : string) : Eff string :=
  httpReq <- lift (wrapErr "failed to create http request: "
               (http_NewRequest "POST" (endpointURL ++ "/operations") req)) ;;
  let httpReq := http.setHeader "Content-Type" "application/json" httpReq in
  let httpReq :=
    if negb (String.eqb (authToken c) "") then
      http.addHeader "Authorization" (authToken c) httpReq
    else httpReq in
  resp <- call (CallDo httpReq)
            (wrapErr "failed to send request: " (Do c httpReq)) ;;
  deferred
    (responseBytes <- lift (wrapErr "failed to read response : "
                              (http.ReadAll resp)) ;;
     if negb (http.StatusCode resp =? http.StatusOK)%Z then
       fail ("got unexpected response from " ++ endpointURL ++ " status '"
             ++ itoa (http.StatusCode resp) ++ "' body " ++ responseBytes)
     else ret responseBytes)
    (closeResponseBody resp).

(** *** [UpdateDID] (88-124) *)

Definition UpdateDID (c : Client) (did domain : string)
    (opts : list update.Option) : Eff unit :=
  let updateDIDOpts := applyOptions update.zero opts in
  if isNil (update.SigningKey updateDIDOpts) then
    fail "signing public key is required"
  else if isNil (update.NextUpdatePublicKey updateDIDOpts) then
    fail "next update public key is required"
  else
    sidetreeEndpoint <- getEndpoint c domain
                          (update.SidetreeEndpoints updateDIDOpts) ;;
    sidetreeConfig <- call (CallGetSidetreeConfig sidetreeEndpoint)
                        (GetSidetreeConfig (configService_ c) sidetreeEndpoint) ;;
    req <- wrapEff "failed to build update request: "
             (buildUpdateRequest did sidetreeConfig updateDIDOpts) ;;
    _ <- wrapEff "failed to send create sidetree request: "
           (sendRequest c req sidetreeEndpoint) ;;
    ret tt.

(** *** [RecoverDID] (127-160) *)

Definition RecoverDID (c : Client) (did domain : string)
    (opts : list recovery.Option) : Eff unit :=
  let recoverDIDOpts := applyOptions recovery.zero opts in
  _ <- lift (validateRecoverReq recoverDIDOpts) ;;
  sidetreeEndpoint <- getEndpoint c domain
                        (recovery.SidetreeEndpoints recoverDIDOpts) ;;
  sidetreeConfig <- call (CallGetSidetreeConfig sidetreeEndpoint)
                      (GetSidetreeConfig (configService_ c) sidetreeEndpoint) ;;
  req <- wrapEff "failed to build sidetree request: "
           (buildRecoverRequest did sidetreeConfig recoverDIDOpts) ;;
  _ <- wrapEff "failed to send recover sidetree request: "
         (sendRequest c req sidetreeEndpoint) ;;
  ret tt.

(** *** [DeactivateDID] (163-195) *)

Definition DeactivateDID (c : Client) (did domain : string)
    (opts : list deactivate.Option) : Eff unit :=
  let deactivateDIDOpts := applyOptions deactivate.zero opts in
  if isNil (deactivate.SigningKey deactivateDIDOpts) then
    fail "signing key is required"
  else
    sidetreeEndpoint <- getEndpoint c domain
                          (deactivate.SidetreeEndpoints deactivateDIDOpts) ;;
    sidetreeConfig <- call (CallGetSidetreeConfig sidetreeEndpoint)
                        (GetSidetreeConfig (configService_ c) sidetreeEndpoint) ;;
    req <- wrapEff "failed to build sidetree request: "
             (buildDeactivateRequest did sidetreeConfig deactivateDIDOpts) ;;
    _ <- wrapEff "failed to send deactivate sidetree request: "
           (sendRequest c req sidetreeEndpoint) ;;
    ret tt.

End ClientCode.

(** ** A sample environment

    Concrete collaborators on which the client can be run. *)

Module Sample.

Definition p256Key : ecdsa.PrivateKey :=
  {| ecdsa.PublicKey_ := {| ecdsa.Curve_ := ecdsa.P256;
                            ecdsa.X := Some 11; ecdsa.Y := Some 22 |};
     ecdsa.D := 7 |}.

(** A P-256 key whose point was never filled in. *)
Definition p256KeyNoPoint : ecdsa.PrivateKey :=
  {| ecdsa.PublicKey_ := {| ecdsa.Curve_ := ecdsa.P256;
                            ecdsa.X := None; ecdsa.Y := None |};
     ecdsa.D := 7 |}.

Definition p384Key : ecdsa.PrivateKey :=
  {| ecdsa.PublicKey_ := {| ecdsa.Curve_ := ecdsa.P384;
                            ecdsa.X := Some 33; ecdsa.Y := Some 44 |};
     ecdsa.D := 9 |}.

Definition edKey : string := "seed-pub".

Definition curveName (c : ecdsa.Curve) : string :=
  match c with
  | ecdsa.P224 => "P-224" | ecdsa.P256 => "P-256"
  | ecdsa.P384 => "P-384" | ecdsa.P521 => "P-521"
  end.

Definition GetPublicKeyJWK (k : option crypto.PublicKey) : result jws.JWK :=
  match k with
  | Some (crypto.ECDSAPublicKey pk) =>
      match ecdsa.X pk, ecdsa.Y pk with
      | Some x, Some y =>
          Ok {| jws.Kty := "EC"; jws.Crv := curveName (ecdsa.Curve_ pk);
                jws.X := itoa x; jws.Y := itoa y |}
      | _, _ => Err "invalid EC key (nil, or X/Y missing)"
      end
  | Some (crypto.Ed25519PublicKey pk) =>
      Ok {| jws.Kty := "OKP"; jws.Crv := "Ed25519"; jws.X := pk; jws.Y := "" |}
  | Some (crypto.OtherPublicKey t) => Err ("unknown key type '" ++ t ++ "'")
  | None => Err "unknown key type '%!s(<nil>)'"
  end.

(** A value is read as a JWK when it is [{kty:OKP,crv:Ed25519,x:]
    followed by the key and a closing brace, or [{kty:oct,k:] followed
    by a symmetric key and a closing brace (quotes left out). *)
Definition between (n : nat) (v : string) : string :=
  substring n (String.length v - n - 1) v.

Definition UnmarshalJSON (v : string) : result jose.JSONWebKey :=
  if prefix "{kty:OKP,crv:Ed25519,x:" v then
    Ok {| jose.Key := Some (jose.Public
            (crypto.Ed25519PublicKey (between 23 v)));
          jose.KeyID := "" |}
  else if prefix "{kty:oct,k:" v then
    Ok {| jose.Key := Some (jose.Symmetric (between 11 v));
          jose.KeyID := "" |}
  else Err "square/go-jose: unknown json web key type".

Definition publicValue (jwk : jose.JSONWebKey) : result string :=
  match jose.Key jwk with
  | Some (jose.Public (crypto.Ed25519PublicKey k)) => Ok k
  | _ => Err "unsupported public key type in JWK"
  end.

Definition GetCommitment (jwk : jws.JWK) (code : N) : result string :=
  if (code =? 18)%N then Ok ("commit(" ++ jws.X jwk ++ ")")
  else Err "algorithm not supported".

(** The checks of the Sidetree request constructors. Each refuses an
    empty unique suffix and an empty reveal value, and a next commitment
    that is the commitment of the key that signs; the update constructor
    wants patches and the recover constructor a document. *)
Definition validateCommitment (jwk : jws.JWK) (code : N) (next : string)
  : result unit :=
  match GetCommitment jwk code with
  | Err e => Err ("calculate current commitment: " ++ e)
  | Ok current =>
      if String.eqb current next then
        Err "re-using public keys for commitment is not allowed"
      else Ok tt
  end.

Definition NewUpdateRequest (info : client.UpdateRequestInfo) : result string :=
  if String.eqb (client.u_DidSuffix info) "" then Err "missing did unique suffix"
  else if String.eqb (client.u_RevealValue info) "" then Err "missing reveal value"
  else if (length (client.u_Patches info) =? 0)%nat then
    Err "missing update information"
  else
    match validateCommitment (client.u_UpdateKey info)
            (client.u_MultihashCode info) (client.u_UpdateCommitment info) with
    | Err e => Err e
    | Ok _ => Ok ("update:" ++ client.u_DidSuffix info ++ ":"
                  ++ client.u_RevealValue info)
    end.

Definition NewRecoverRequest (info : client.RecoverRequestInfo) : result string :=
  if String.eqb (client.r_DidSuffix info) "" then Err "missing did unique suffix"
  else if String.eqb (client.r_RevealValue info) "" then Err "missing reveal value"
  else if String.eqb (client.r_OpaqueDocument info) "" then
    Err "missing opaque document"
  else
    match validateCommitment (client.r_RecoveryKey info)
            (client.r_MultihashCode info) (client.r_RecoveryCommitment info) with
    | Err e => Err e
    | Ok _ => Ok ("recover:" ++ client.r_DidSuffix info ++ ":"
                  ++ client.r_RevealValue info ++ ":"
                  ++ client.r_OpaqueDocument info)
    end.

Definition NewDeactivateRequest (info : client.DeactivateRequestInfo)
  : result string :=
  if String.eqb (client.d_DidSuffix info) "" then Err "missing did unique suffix"
  else if String.eqb (client.d_RevealValue info) "" then Err "missing reveal value"
  else Ok ("deactivate:" ++ client.d_DidSuffix info ++ ":"
           ++ client.d_RevealValue info).

Definition ext : Externals := {|
  ed25519_Public := fun priv => substring 5 (String.length priv - 5) priv;
  pubkey_GetPublicKeyJWK := GetPublicKeyJWK;
  commitment_GetCommitment := GetCommitment;
  commitment_GetRevealValue := fun jwk code =>
    if (code =? 18)%N then Ok ("reveal(" ++ jws.X jwk ++ ")")
    else Err "algorithm not supported";
  patch_accept := fun _ s =>
    if String.eqb s "" then Err "missing value" else Ok s;
  client_NewUpdateRequest := NewUpdateRequest;
  client_NewRecoverRequest := NewRecoverRequest;
  client_NewDeactivateRequest := NewDeactivateRequest;
  json_Marshal_strings := fun l => Ok ("[" ++ String.concat "," l ++ "]");
  json_Marshal_raw := fun l =>
    Ok ("[" ++ String.concat "," (map (fun r => String.concat ";" (map snd r)) l) ++ "]");
  jose_UnmarshalJSON := UnmarshalJSON;
  jose_Public := fun jwk => jwk;
  doc_PopulateRawServices := map (fun s => [("id", docdid.ID s)]);
  doc_PopulateRawPublicKeys := fun l =>
    Ok (map (fun k => [("id", doc.ID k); ("value", doc.Value k)]) l);
  doc_JSONBytes := fun d =>
    Ok ("{" ++ String.concat "," (map doc.Value (doc.PublicKey_ d)) ++ "}");
  doc_publicValue := publicValue;
  http_NewRequest := fun m u b =>
    Ok {| http.Method := m; http.URL := u; http.Header := []; http.Body := b |}
|}.

Definition endpointA : models.Endpoint := {| models.URL := "https://a.example" |}.
Definition endpointB : models.Endpoint := {| models.URL := "https://b.example" |}.

(** Discovery knows one domain, served by [endpointB]; a second domain
    has no endpoint. *)
Definition discovery : endpointService := {|
  GetEndpoints := fun domain =>
    if String.eqb domain "b.example" then Ok [endpointB]
    else if String.eqb domain "empty.example" then Ok []
    else Err "no stakeholders"
|}.

Definition config : configService := {|
  GetSidetreeConfig := fun _ => Ok {| models.MultiHashAlgorithm := 18%N |}
|}.

Definition c : Client := {|
  endpointService_ := discovery;
  Do := fun _ => Ok {| http.StatusCode := 200; http.ReadAll := Ok "{}";
                       http.Close := None |};
  authToken := "";
  configService_ := config
|}.

(** A client with a token whose server answers 503 and whose response
    bodies fail to close. *)
Definition down : Client := {|
  endpointService_ := discovery;
  Do := fun _ => Ok {| http.StatusCode := 503; http.ReadAll := Ok "busy";
                       http.Close := Some "already closed" |};
  authToken := "Bearer t0";
  configService_ := config
|}.

(** Options in the manner of [recovery.WithNextRecoveryPublicKey] and
    its siblings, setting the three required keys at once. *)
Definition recoveryKeys (nextRecovery nextUpdate : option crypto.PublicKey)
    (signing : option crypto.PrivateKey) : recovery.Option :=
  fun o =>
    {| recovery.NextRecoveryPublicKey := nextRecovery;
       recovery.NextUpdatePublicKey := nextUpdate;
       recovery.SigningKey := signing;
       recovery.SigningKeyID := recovery.SigningKeyID o;
       recovery.SidetreeEndpoints := recovery.SidetreeEndpoints o;
       recovery.RevealValue := recovery.RevealValue o;
       recovery.PublicKeys := recovery.PublicKeys o;
       recovery.Services := recovery.Services o |}.

Definition updateKeys (signing : option crypto.PrivateKey)
    (nextUpdate : option crypto.PublicKey) : update.Option :=
  fun o =>
    {| update.SigningKey := signing;
       update.SigningKeyID := update.SigningKeyID o;
       update.NextUpdatePublicKey := nextUpdate;
       update.SidetreeEndpoints := update.SidetreeEndpoints o;
       update.RevealValue := update.RevealValue o;
       update.RemovePublicKeys := update.RemovePublicKeys o;
       update.RemoveServices := update.RemoveServices o;
       update.AddServices := update.AddServices o;
       update.AddPublicKeys := update.AddPublicKeys o |}.

Definition edPub : crypto.PublicKey := crypto.Ed25519PublicKey "pub".

(** The keys committed to for the next recovery and the next update;
    they differ from the key that signs. *)
Definition nextRecoveryPub : crypto.PublicKey := crypto.Ed25519PublicKey "rec1".
Definition nextUpdatePub : crypto.PublicKey := crypto.Ed25519PublicKey "upd1".
Definition edPriv : crypto.PrivateKey := crypto.Ed25519PrivateKey edKey.

Definition docKey (value : string) : doc.PublicKey :=
  {| doc.ID := "key1"; doc.Type_ := "JwsVerificationKey2020";
     doc.Recovery := false; doc.Update := false; doc.Value := value |}.

Definition recoverOpts (keys : list doc.PublicKey) : recovery.Opts :=
  {| recovery.NextRecoveryPublicKey := Some nextRecoveryPub;
     recovery.NextUpdatePublicKey := Some nextUpdatePub;
     recovery.SigningKey := Some edPriv;
     recovery.SigningKeyID := "key0";
     recovery.SidetreeEndpoints := [];
     recovery.RevealValue := "";
     recovery.PublicKeys := keys;
     recovery.Services := [] |}.

Definition sha256 : models.SidetreeConfig := {| models.MultiHashAlgorithm := 18%N |}.

Definition deactivateOpts (revealValue : string) : deactivate.Opts :=
  {| deactivate.SigningKey := Some edPriv;
     deactivate.SigningKeyID := "key0";
     deactivate.SidetreeEndpoints := [endpointA];
     deactivate.RevealValue := revealValue |}.

Definition edJWK : jws.JWK :=
  {| jws.Kty := "OKP"; jws.Crv := "Ed25519"; jws.X := "pub"; jws.Y := "" |}.

Definition service1 : docdid.Service :=
  {| docdid.ID := "svc1"; docdid.Type_ := "type"; docdid.ServiceEndpoint := "https://svc" |}.

(** An update that removes one key and adds one service. *)
Definition updateOpts : update.Opts :=
  {| update.SigningKey := Some edPriv;
     update.SigningKeyID := "key0";
     update.NextUpdatePublicKey := Some nextUpdatePub;
     update.SidetreeEndpoints := [];
     update.RevealValue := "";
     update.RemovePublicKeys := ["key7"];
     update.RemoveServices := [];
     update.AddServices := [service1];
     update.AddPublicKeys := [] |}.

(** The sample environment with a JSON encoder that refuses services. *)
Definition extNoRaw : Externals := {|
  ed25519_Public := ed25519_Public (Externals := ext);
  pubkey_GetPublicKeyJWK := GetPublicKeyJWK;
  commitment_GetCommitment := commitment_GetCommitment (Externals := ext);
  commitment_GetRevealValue := commitment_GetRevealValue (Externals := ext);
  patch_accept := patch_accept (Externals := ext);
  client_NewUpdateRequest := client_NewUpdateRequest (Externals := ext);
  client_NewRecoverRequest := client_NewRecoverRequest (Externals := ext);
  client_NewDeactivateRequest := client_NewDeactivateRequest (Externals := ext);
  json_Marshal_strings := json_Marshal_strings (Externals := ext);
  json_Marshal_raw := fun _ => Err "json: unsupported value";
  jose_UnmarshalJSON := UnmarshalJSON;
  jose_Public := fun jwk => jwk;
  doc_PopulateRawServices := doc_PopulateRawServices (Externals := ext);
  doc_PopulateRawPublicKeys := doc_PopulateRawPublicKeys (Externals := ext);
  doc_JSONBytes := doc_JSONBytes (Externals := ext);
  doc_publicValue := publicValue;
  http_NewRequest := http_NewRequest (Externals := ext)
|}.

End Sample.

(** ** Vocabulary of the specification *)

Section Vocabulary.

Context {ext : Externals}.

(** What "passed through JWK-unwrapping" relates: a key whose value
    parses as a JWK to the same key with the JWK's public value, any
    other key to itself. *)
Definition unwrapsTo (k k' : doc.PublicKey) : Prop :=
  match jose_UnmarshalJSON (doc.Value k) with
  | Ok jwk => exists v, doc_publicValue (jose_Public jwk) = Ok v /\
                        k' = doc.withValue v k
  | Err _ => k' = k
  end.

(** The fixed order of the patch categories. *)
Definition patchOrder : list patch.Action :=
  [patch.RemovePublicKeys; patch.RemoveServiceEndpoints;
   patch.AddServiceEndpoints; patch.AddPublicKeys].

Definition rank (a : patch.Action) : nat :=
  match a with
  | patch.RemovePublicKeys => 0
  | patch.RemoveServiceEndpoints => 1
  | patch.AddServiceEndpoints => 2
  | patch.AddPublicKeys => 3
  end.

(** The collection of a category is not empty. *)
Definition requested (o : update.Opts) (a : patch.Action) : bool :=
  match a with
  | patch.RemovePublicKeys => negb (length (update.RemovePublicKeys o) =? 0)%nat
  | patch.RemoveServiceEndpoints => negb (length (update.RemoveServices o) =? 0)%nat
  | patch.AddServiceEndpoints => negb (length (update.AddServices o) =? 0)%nat
  | patch.AddPublicKeys => negb (length (update.AddPublicKeys o) =? 0)%nat
  end.

(** The builder of a category. *)
Definition createPatch (a : patch.Action) (o : update.Opts) : result patch.Patch :=
  match a with
  | patch.RemovePublicKeys => createRemovePublicKeysPatch o
  | patch.RemoveServiceEndpoints => createRemoveServicesPatch o
  | patch.AddServiceEndpoints => createAddServicesPatch o
  | patch.AddPublicKeys => createAddPublicKeysPatch o
  end.

(** The assembler in the words of the specification: the categories
    are visited in order, an empty category is skipped, a category that
    is not empty contributes its patch or aborts with its error. *)
Fixpoint assemble (o : update.Opts) (order : list patch.Action)
    (patches : list patch.Patch) : result (list patch.Patch) :=
  match order with
  | [] => Ok patches
  | a :: rest =>
      if requested o a then
        match createPatch a o with
        | Ok p => assemble o rest (patches ++ [p])
        | Err e => Err e
        end
      else assemble o rest patches
  end.

End Vocabulary.

(** The environment [ext] with another reveal-value derivation. *)
Definition withGetRevealValue (f : jws.JWK -> N -> result string)
    (ext : Externals) : Externals :=
  {| ed25519_Public := ed25519_Public;
     pubkey_GetPublicKeyJWK := pubkey_GetPublicKeyJWK;
     commitment_GetCommitment := commitment_GetCommitment;
     commitment_GetRevealValue := f;
     patch_accept := patch_accept;
     client_NewUpdateRequest := client_NewUpdateRequest;
     client_NewRecoverRequest := client_NewRecoverRequest;
     client_NewDeactivateRequest := client_NewDeactivateRequest;
     json_Marshal_strings := json_Marshal_strings;
     json_Marshal_raw := json_Marshal_raw;
     jose_UnmarshalJSON := jose_UnmarshalJSON;
     jose_Public := jose_Public;
     doc_PopulateRawServices := doc_PopulateRawServices;
     doc_PopulateRawPublicKeys := doc_PopulateRawPublicKeys;
     doc_JSONBytes := doc_JSONBytes;
     doc_publicValue := doc_publicValue;
     http_NewRequest := http_NewRequest |}.

(** ** Vocabulary of the operations and of their traces *)

Definition isLog (ev : Event) : bool :=
  match ev with LogError _ => true | _ => false end.

Definition isCallGetEndpoints (ev : Event) : bool :=
  match ev with CallGetEndpoints _ => true | _ => false end.

Definition isCallGetSidetreeConfig (ev : Event) : bool :=
  match ev with CallGetSidetreeConfig _ => true | _ => false end.

Definition isCallDo (ev : Event) : bool :=
  match ev with CallDo _ => true | _ => false end.

(** No event, or one event of the kind [p]. *)
Definition atMostOne (p : Event -> bool) (t : list Event) : Prop :=
  t = [] \/ exists ev, p ev = true /\ t = [ev].

(** The shape of what an operation leaves behind: at most one discovery,
    then at most one config fetch, then log lines, then at most one HTTP
    request followed by log lines. *)
Definition operationTrace (t : list Event) : Prop :=
  exists discovery config logs request closing,
    t = (discovery ++ config ++ logs ++ request ++ closing)%list /\
    atMostOne isCallGetEndpoints discovery /\
    atMostOne isCallGetSidetreeConfig config /\
    forallb isLog logs = true /\
    atMostOne isCallDo request /\
    forallb isLog closing = true /\
    (request = [] -> closing = []).

(** One of the three operations, with the options it is called with. *)
Inductive Operation :=
| OpUpdate (opts : list update.Option)
| OpRecover (opts : list recovery.Option)
| OpDeactivate (opts : list deactivate.Option).

(** The client [c] whose responses close with the outcome [cl]. *)
Definition withClose (cl : http.Response -> option error) (c : Client) : Client :=
  {| endpointService_ := endpointService_ c;
     Do := fun r =>
       match Do c r with
       | Ok resp => Ok {| http.StatusCode := http.StatusCode resp;
                          http.ReadAll := http.ReadAll resp;
                          http.Close := cl resp |}
       | Err e => Err e
       end;
     authToken := authToken c;
     configService_ := configService_ c |}.

Section Operations.

Context {ext : Externals}.

Definition run (c : Client) (did domain : string) (op : Operation) : Eff unit :=
  match op with
  | OpUpdate opts => UpdateDID c did domain opts
  | OpRecover opts => RecoverDID c did domain opts
  | OpDeactivate opts => DeactivateDID c did domain opts
  end.

(** The required keys of the operation are all present. *)
Definition validated (op : Operation) : bool :=
  match op with
  | OpUpdate opts =>
      let o := applyOptions update.zero opts in
      negb (isNil (update.SigningKey o))
      && negb (isNil (update.NextUpdatePublicKey o))
  | OpRecover opts =>
      let o := applyOptions recovery.zero opts in
      negb (isNil (recovery.NextRecoveryPublicKey o))
      && negb (isNil (recovery.NextUpdatePublicKey o))
      && negb (isNil (recovery.SigningKey o))
  | OpDeactivate opts =>
      negb (isNil (deactivate.SigningKey (applyOptions deactivate.zero opts)))
  end.

Definition explicitEndpoints (op : Operation) : list models.Endpoint :=
  match op with
  | OpUpdate opts => update.SidetreeEndpoints (applyOptions update.zero opts)
  | OpRecover opts => recovery.SidetreeEndpoints (applyOptions recovery.zero opts)
  | OpDeactivate opts =>
      deactivate.SidetreeEndpoints (applyOptions deactivate.zero opts)
  end.

(** The builder the operation calls. *)
Definition buildOf (op : Operation) (did : string) (cfg : models.SidetreeConfig)
  : Eff string :=
  match op with
  | OpUpdate opts => buildUpdateRequest did cfg (applyOptions update.zero opts)
  | OpRecover opts => buildRecoverRequest did cfg (applyOptions recovery.zero opts)
  | OpDeactivate opts =>
      buildDeactivateRequest did cfg (applyOptions deactivate.zero opts)
  end.

(** The text put before the error of a failed build (lines 115, 151, 186). *)
Definition buildPrefix (op : Operation) : string :=
  match op with
  | OpUpdate _ => "failed to build update request: "
  | OpRecover _ => "failed to build sidetree request: "
  | OpDeactivate _ => "failed to build sidetree request: "
  end.

(** The text put before the error of a failed send (lines 120, 156, 191). *)
Definition sendPrefix (op : Operation) : string :=
  match op with
  | OpUpdate _ => "failed to send create sidetree request: "
  | OpRecover _ => "failed to send recover sidetree request: "
  | OpDeactivate _ => "failed to send deactivate sidetree request: "
  end.

(** The steps the three operations share once the options are checked. *)
Definition pipeline (c : Client) (domain : string)
    (endpoints : list models.Endpoint) (pb ps : string)
    (build : models.SidetreeConfig -> Eff string) : Eff unit :=
  (sidetreeEndpoint <- getEndpoint c domain endpoints ;;
   sidetreeConfig <- call (CallGetSidetreeConfig sidetreeEndpoint)
                       (GetSidetreeConfig (configService_ c) sidetreeEndpoint) ;;
   req <- wrapEff pb (build sidetreeConfig) ;;
   _ <- wrapEff ps (sendRequest c req sidetreeEndpoint) ;;
   ret tt)%eff.

(** The request of lines 533-537: the headers set on what
    [http.NewRequest] returned. *)
Definition outgoing (c : Client) (r0 : http.Request) : http.Request :=
  let r1 := http.setHeader "Content-Type" "application/json" r0 in
  if negb (String.eqb (authToken c) "") then
    http.addHeader "Authorization" (authToken c) r1
  else r1.

End Operations.

(** * Properties *)

(** ** Byte strings *)

Section StringFacts.

Local Open Scope nat_scope.

Lemma length_app (s1 s2 : string) :
  String.length (s1 ++ s2) = String.length s1 + String.length s2.
Proof. induction s1 as [|a s1 IH]; simpl; [reflexivity | now rewrite IH]. Qed.

Lemma get_app_r (s1 s2 : string) (i : nat) :
  get (String.length s1 + i) (s1 ++ s2) = get i s2.
Proof. induction s1 as [|a s1 IH]; simpl; [reflexivity | exact IH]. Qed.

Lemma lacks_get c s i a :
  strings.lacks c s = true -> get i s = Some a -> Ascii.eqb a c = false.
Proof.
  revert i. induction s as [|b s IH]; intros i Hl Hg; simpl in *.
  - discriminate.
  - apply andb_true_iff in Hl as [Hb Hs].
    destruct i as [|i].
    + injection Hg as <-. now apply negb_true_iff.
    + eauto.
Qed.

Lemma lastIndexFrom_lacks c s n :
  strings.lacks c s = true -> strings.lastIndexFrom s c n = (-1)%Z.
Proof.
  intros Hl. induction n as [|n IH]; simpl; [reflexivity|].
  destruct (get n s) as [a|] eqn:Hg; [|exact IH].
  now rewrite (lacks_get _ _ _ Hl Hg).
Qed.

Lemma lastIndexFrom_last c pre suf m :
  strings.lacks c suf = true ->
  strings.lastIndexFrom (pre ++ String c suf) c (S (String.length pre + m))
  = Z.of_nat (String.length pre).
Proof.
  intros Hl. induction m as [|m IH].
  - simpl. rewrite get_app_r. simpl. now rewrite Ascii.eqb_refl, Nat.add_0_r.
  - rewrite Nat.add_succ_r.
    change (strings.lastIndexFrom ?s c (S (S ?k)))
      with (match get (S k) s with
            | Some a => if Ascii.eqb a c then Z.of_nat (S k)
                        else strings.lastIndexFrom s c (S k)
            | None => strings.lastIndexFrom s c (S k)
            end).
    rewrite <- Nat.add_succ_r, get_app_r. simpl get.
    rewrite Nat.add_succ_r.
    destruct (get m suf) as [a|] eqn:Hg; [|exact IH].
    now rewrite (lacks_get _ _ _ Hl Hg).
Qed.

Lemma LastIndexByte_last c pre suf :
  strings.lacks c suf = true ->
  strings.LastIndexByte (pre ++ String c suf) c = Z.of_nat (String.length pre).
Proof.
  intros Hl. unfold strings.LastIndexByte.
  rewrite length_app. simpl String.length. rewrite Nat.add_succ_r.
  now apply lastIndexFrom_last.
Qed.

Lemma substring_all (s : string) : substring 0 (String.length s) s = s.
Proof. induction s as [|a s IH]; simpl; [reflexivity | now rewrite IH]. Qed.

Lemma substring_skip (pre s : string) (m : nat) :
  substring (String.length pre) m (pre ++ s) = substring 0 m s.
Proof. induction pre as [|a pre IH]; simpl; [reflexivity | exact IH]. Qed.

Lemma app_snoc (pre suf : string) (c : ascii) :
  (pre ++ String c "") ++ suf = pre ++ String c suf.
Proof. induction pre as [|a pre IH]; simpl; [reflexivity | now rewrite IH]. Qed.

Lemma sliceFrom_after c pre suf :
  strings.sliceFrom (pre ++ String c suf) (Z.of_nat (String.length pre) + 1) = suf.
Proof.
  unfold strings.sliceFrom.
  replace (Z.to_nat (Z.of_nat (String.length pre) + 1))
    with (String.length (pre ++ String c "")) by (rewrite length_app; simpl; lia).
  rewrite <- (app_snoc pre suf c) at 1 2.
  rewrite substring_skip, length_app.
  replace (String.length (pre ++ String c "") + String.length suf
           - String.length (pre ++ String c "")) with (String.length suf) by lia.
  apply substring_all.
Qed.

(** A string with a [c] in it splits at its last [c]. *)
Lemma split_last c s :
  strings.lacks c s = false ->
  exists pre suf, s = pre ++ String c suf /\ strings.lacks c suf = true.
Proof.
  induction s as [|a s IH]; simpl; intros H; [discriminate|].
  destruct (strings.lacks c s) eqn:Hs.
  - rewrite andb_true_r in H. apply negb_false_iff, Ascii.eqb_eq in H. subst a.
    now exists "", s.
  - destruct (IH eq_refl) as (pre & suf & -> & Hsuf).
    now exists (String a pre), suf.
Qed.

End StringFacts.

(** ** [getUniqueSuffix] *)

Lemma getUniqueSuffix_split pre suf :
  strings.lacks colon suf = true ->
  getUniqueSuffix (pre ++ String colon suf) = Ok suf.
Proof.
  intros Hl. unfold getUniqueSuffix.
  rewrite (LastIndexByte_last _ pre _ Hl).
  destruct (Z.eqb_spec (Z.of_nat (String.length pre)) (-1)) as [E|_]; [lia|].
  now rewrite sliceFrom_after.
Qed.

Lemma getUniqueSuffix_no_colon id :
  strings.lacks colon id = true ->
  getUniqueSuffix id = Err ("unique suffix not provided in id [" ++ id ++ "]").
Proof.
  intros Hl. unfold getUniqueSuffix, strings.LastIndexByte.
  now rewrite lastIndexFrom_lacks.
Qed.

(** C3. [getUniqueSuffix] returns what follows the last colon of a string
    that has one, and fails on a string without colon; so on
    ["did:method:abc123"] it returns ["abc123"] and on ["noColonHere"] it
    fails. *)
Theorem getUniqueSuffix_after_last_colon :
  forall id : string,
    (strings.lacks colon id = false ->
     exists pre suf,
       id = pre ++ ":" ++ suf /\ strings.lacks colon suf = true /\
       getUniqueSuffix id = Ok suf)
    /\ (strings.lacks colon id = true ->
        getUniqueSuffix id = Err ("unique suffix not provided in id [" ++ id ++ "]"))
    /\ getUniqueSuffix "did:method:abc123" = Ok "abc123"
    /\ getUniqueSuffix "noColonHere"
       = Err "unique suffix not provided in id [noColonHere]".
Proof.
  intros id. repeat split.
  - intros H. destruct (split_last _ _ H) as (pre & suf & -> & Hsuf).
    exists pre, suf. repeat split; trivial.
    now apply getUniqueSuffix_split.
  - apply getUniqueSuffix_no_colon.
Qed.

Lemma getUniqueSuffix_after_last_colon_witness :
  (exists pre suf,
     "did:trustbloc:testnet:EiAx" = pre ++ ":" ++ suf /\
     strings.lacks colon suf = true /\
     getUniqueSuffix "did:trustbloc:testnet:EiAx" = Ok suf)
  /\ getUniqueSuffix "EiAx" = Err "unique suffix not provided in id [EiAx]".
Proof.
  split.
  - apply (proj1 (getUniqueSuffix_after_last_colon "did:trustbloc:testnet:EiAx")).
    reflexivity.
  - apply (proj1 (proj2 (getUniqueSuffix_after_last_colon "EiAx"))).
    reflexivity.
Defined.

(** ** Effects *)

Lemma ebind_lift_Ok {A B} (a : A) (k : A -> Eff B) : ebind (lift (Ok a)) k = k a.
Proof. unfold ebind, lift. simpl. now destruct (k a). Qed.

Lemma ebind_lift_Err {A B} (e : error) (k : A -> Eff B) :
  ebind (lift (Err e)) k = (Err e, []).
Proof. reflexivity. Qed.

Lemma ebind_ret {A B} (a : A) (k : A -> Eff B) : ebind (ret a) k = k a.
Proof. apply ebind_lift_Ok. Qed.

Lemma ebind_call_Ok {A B} ev (a : A) (k : A -> Eff B) :
  ebind (call ev (Ok a)) k = (fst (k a), ev :: snd (k a)).
Proof. reflexivity. Qed.

Lemma ebind_call_Err {A B} ev (e : error) (k : A -> Eff B) :
  ebind (call ev (Err e)) k = (Err e, [ev]).
Proof. reflexivity. Qed.

(** ** [getEndpoint] *)

Section EndpointFacts.

Variable c : Client.

Lemma getEndpoint_no_domain_nil :
  getEndpoint c "" [] = (Err "domain is empty and sidetree endpoints is empty", []).
Proof. reflexivity. Qed.

Lemma getEndpoint_no_domain_cons e rest :
  getEndpoint c "" (e :: rest) = (Ok (models.URL e), []).
Proof. reflexivity. Qed.

(** With a domain, the explicit list is read only by the first test,
    which the domain alone decides. *)
Lemma getEndpoint_domain domain sidetreeEndpoints :
  domain <> "" ->
  getEndpoint c domain sidetreeEndpoints =
  match GetEndpoints (endpointService_ c) domain with
  | Ok (e :: _) => (Ok (models.URL e), [CallGetEndpoints domain])
  | Ok [] => (Err "list of endpoints is empty", [CallGetEndpoints domain])
  | Err err => (Err ("failed to get endpoints: " ++ err), [CallGetEndpoints domain])
  end.
Proof.
  intros Hd. unfold getEndpoint.
  apply String.eqb_neq in Hd. rewrite Hd. simpl.
  destruct (GetEndpoints (endpointService_ c) domain) as [[|e rest]|err];
    reflexivity.
Qed.

(** The index expression [endpoints[0]] is always in range. *)
Lemma getEndpoint_index_in_range domain sidetreeEndpoints :
  fst (getEndpoint c domain sidetreeEndpoints)
  <> Err "runtime error: index out of range [0] with length 0".
Proof.
  destruct (String.eqb_spec domain "") as [->|Hd].
  - destruct sidetreeEndpoints; simpl; discriminate.
  - rewrite (getEndpoint_domain _ Hd).
    destruct (GetEndpoints (endpointService_ c) domain) as [[|e rest]|err];
      simpl; discriminate.
Qed.

End EndpointFacts.

(** C8. [getEndpoint] with an empty domain and no endpoint fails with
    "domain is empty and sidetree endpoints is empty"; with an empty domain
    and explicit endpoints it returns the first one's URL and discovery is
    not called; with a domain it returns the first discovered endpoint's
    URL, and fails when discovery fails or finds no endpoint. *)
Theorem getEndpoint_resolution :
  forall (c : Client),
    getEndpoint c "" []
      = (Err "domain is empty and sidetree endpoints is empty", [])
    /\ (forall e rest, getEndpoint c "" (e :: rest) = (Ok (models.URL e), []))
    /\ (forall domain explicit, domain <> "" ->
         (forall e rest,
            GetEndpoints (endpointService_ c) domain = Ok (e :: rest) ->
            getEndpoint c domain explicit
              = (Ok (models.URL e), [CallGetEndpoints domain]))
         /\ (forall err,
               GetEndpoints (endpointService_ c) domain = Err err ->
               getEndpoint c domain explicit
                 = (Err ("failed to get endpoints: " ++ err),
                    [CallGetEndpoints domain]))
         /\ (GetEndpoints (endpointService_ c) domain = Ok [] ->
             getEndpoint c domain explicit
               = (Err "list of endpoints is empty", [CallGetEndpoints domain]))).
Proof.
  intros c. split; [reflexivity|]. split; [reflexivity|].
  intros domain explicit Hd. rewrite (getEndpoint_domain c explicit Hd).
  repeat split; intros; match goal with H : _ = _ |- _ => now rewrite H end.
Qed.

Lemma getEndpoint_resolution_witness :
  getEndpoint Sample.c "b.example" []
    = (Ok "https://b.example", [CallGetEndpoints "b.example"])
  /\ getEndpoint Sample.c "down.example" [Sample.endpointA]
     = (Err "failed to get endpoints: no stakeholders",
        [CallGetEndpoints "down.example"])
  /\ getEndpoint Sample.c "empty.example" [Sample.endpointA]
     = (Err "list of endpoints is empty", [CallGetEndpoints "empty.example"]).
Proof.
  split; [|split].
  - apply (proj1 (proj2 (proj2 (getEndpoint_resolution Sample.c))
                    "b.example" [] ltac:(discriminate))
             Sample.endpointB []).
    reflexivity.
  - apply (proj1 (proj2 (proj2 (proj2 (getEndpoint_resolution Sample.c))
                           "down.example" [Sample.endpointA]
                           ltac:(discriminate)))
             "no stakeholders").
    reflexivity.
  - apply (proj2 (proj2 (proj2 (proj2 (getEndpoint_resolution Sample.c))
                           "empty.example" [Sample.endpointA]
                           ltac:(discriminate)))).
    reflexivity.
Defined.

(** C9, as stated, fails: with a domain and a non-empty explicit list,
    discovery is called and its endpoint is returned, not the explicit one;
    and when discovery fails the call fails although an explicit endpoint
    was supplied. *)
Lemma explicit_endpoints_do_not_bypass_discovery :
  getEndpoint Sample.c "b.example" [Sample.endpointA]
    = (Ok (models.URL Sample.endpointB), [CallGetEndpoints "b.example"])
  /\ models.URL Sample.endpointB <> models.URL Sample.endpointA
  /\ getEndpoint Sample.c "down.example" [Sample.endpointA]
     = (Err "failed to get endpoints: no stakeholders",
        [CallGetEndpoints "down.example"]).
Proof. split; [reflexivity|]. split; [discriminate | reflexivity]. Qed.

(** C9, amended. A non-empty explicit endpoint list bypasses discovery
    exactly when the domain is empty: its first endpoint is then returned
    and discovery is not called. When a domain is supplied, discovery is
    called and alone decides the result, whatever the explicit list. *)
Theorem explicit_endpoints_used_when_domain_empty :
  forall (c : Client) (domain : string) (explicit : list models.Endpoint),
    explicit <> [] ->
    (domain = "" ->
     exists e rest, explicit = e :: rest /\
       getEndpoint c domain explicit = (Ok (models.URL e), []))
    /\ (domain <> "" ->
        snd (getEndpoint c domain explicit) = [CallGetEndpoints domain]
        /\ forall other, getEndpoint c domain explicit = getEndpoint c domain other).
Proof.
  intros c domain explicit Hne. split.
  - intros ->. destruct explicit as [|e rest]; [contradiction|].
    now exists e, rest.
  - intros Hd. split.
    + rewrite (getEndpoint_domain c explicit Hd).
      now destruct (GetEndpoints (endpointService_ c) domain) as [[|e rest]|err].
    + intros other. now rewrite !(getEndpoint_domain c _ Hd).
Qed.

Lemma explicit_endpoints_used_when_domain_empty_witness :
  (exists e rest, [Sample.endpointA; Sample.endpointB] = e :: rest /\
     getEndpoint Sample.c "" [Sample.endpointA; Sample.endpointB]
       = (Ok (models.URL e), []))
  /\ snd (getEndpoint Sample.c "b.example" [Sample.endpointA])
     = [CallGetEndpoints "b.example"].
Proof.
  split.
  - apply (proj1 (explicit_endpoints_used_when_domain_empty Sample.c ""
                    (explicit := [Sample.endpointA; Sample.endpointB])
                    ltac:(discriminate))).
    reflexivity.
  - apply (proj2 (explicit_endpoints_used_when_domain_empty Sample.c "b.example"
                    (explicit := [Sample.endpointA]) ltac:(discriminate))).
    discriminate.
Defined.

(** ** Required options *)

Lemma isNil_None {A} (o : option A) : o = None -> isNil o = true.
Proof. now intros ->. Qed.

Lemma isNil_Some {A} (o : option A) : o <> None -> isNil o = false.
Proof. now destruct o. Qed.

(** C6. [RecoverDID] on options without next recovery public key fails
    with "next recovery public key is required"; without next update
    public key, with "next update public key is required"; without signing
    key, with "signing key is required" (the checks run in this order, the
    first missing key deciding the message). In each case nothing was
    called: no discovery, no config fetch, no HTTP request. *)
Theorem RecoverDID_required_keys :
  forall (ext : Externals) (c : Client) (did domain : string)
         (opts : list recovery.Option),
    let o := applyOptions recovery.zero opts in
    (recovery.NextRecoveryPublicKey o = None ->
     RecoverDID c did domain opts
       = (Err "next recovery public key is required", []))
    /\ (recovery.NextUpdatePublicKey o = None ->
        recovery.NextRecoveryPublicKey o <> None ->
        RecoverDID c did domain opts
          = (Err "next update public key is required", []))
    /\ (recovery.SigningKey o = None ->
        recovery.NextRecoveryPublicKey o <> None ->
        recovery.NextUpdatePublicKey o <> None ->
        RecoverDID c did domain opts = (Err "signing key is required", []))
    /\ (recovery.NextRecoveryPublicKey o = None \/
        recovery.NextUpdatePublicKey o = None \/
        recovery.SigningKey o = None ->
        snd (RecoverDID c did domain opts) = [] /\
        exists e, fst (RecoverDID c did domain opts) = Err e /\
          In e ["next recovery public key is required";
                "next update public key is required";
                "signing key is required"]).
Proof.
  intros ext c did domain opts o. unfold RecoverDID, validateRecoverReq.
  fold o. split; [|split; [|split]].
  - intros H. now rewrite (isNil_None H).
  - intros H1 H0. now rewrite (isNil_Some H0), (isNil_None H1).
  - intros H2 H0 H1. now rewrite (isNil_Some H0), (isNil_Some H1), (isNil_None H2).
  - intros H.
    destruct (recovery.NextRecoveryPublicKey o) as [k0|];
      [|simpl; split; [reflexivity|]; eexists; split;
        [reflexivity | simpl; tauto]].
    destruct (recovery.NextUpdatePublicKey o) as [k1|];
      [|simpl; split; [reflexivity|]; eexists; split;
        [reflexivity | simpl; tauto]].
    destruct (recovery.SigningKey o) as [k2|];
      [|simpl; split; [reflexivity|]; eexists; split;
        [reflexivity | simpl; tauto]].
    destruct H as [H|[H|H]]; discriminate H.
Qed.

Lemma RecoverDID_required_keys_witness :
  RecoverDID (ext := Sample.ext) Sample.c "did:trustbloc:EiAx" "b.example" []
    = (Err "next recovery public key is required", [])
  /\ RecoverDID (ext := Sample.ext) Sample.c "did:trustbloc:EiAx" "b.example"
       [Sample.recoveryKeys (Some Sample.edPub) None (Some Sample.edPriv)]
     = (Err "next update public key is required", [])
  /\ RecoverDID (ext := Sample.ext) Sample.c "did:trustbloc:EiAx" "b.example"
       [Sample.recoveryKeys (Some Sample.edPub) (Some Sample.edPub) None]
     = (Err "signing key is required", [])
  /\ snd (RecoverDID (ext := Sample.ext) Sample.c "did:trustbloc:EiAx"
            "b.example" [Sample.recoveryKeys None None None]) = [].
Proof.
  split; [|split; [|split]].
  - apply (proj1 (RecoverDID_required_keys Sample.ext Sample.c
                    "did:trustbloc:EiAx" "b.example" [])).
    reflexivity.
  - apply (proj1 (proj2 (RecoverDID_required_keys Sample.ext Sample.c
                    "did:trustbloc:EiAx" "b.example"
                    [Sample.recoveryKeys (Some Sample.edPub) None
                       (Some Sample.edPriv)]))).
    + reflexivity.
    + discriminate.
  - apply (proj1 (proj2 (proj2 (RecoverDID_required_keys Sample.ext Sample.c
                    "did:trustbloc:EiAx" "b.example"
                    [Sample.recoveryKeys (Some Sample.edPub) (Some Sample.edPub)
                       None])))).
    + reflexivity.
    + discriminate.
    + discriminate.
  - apply (proj2 (proj2 (proj2 (RecoverDID_required_keys Sample.ext Sample.c
                    "did:trustbloc:EiAx" "b.example"
                    [Sample.recoveryKeys None None None])))).
    left. reflexivity.
Defined.

(** C7. [UpdateDID] on options without signing key fails with "signing
    public key is required", and without next update public key with "next
    update public key is required" (the signing key being checked first);
    [DeactivateDID] without signing key fails with "signing key is
    required". The failure is immediate: nothing was called, neither
    discovery nor config fetch nor HTTP, and nothing is tried again. *)
Theorem UpdateDID_DeactivateDID_required_keys :
  forall (ext : Externals) (c : Client) (did domain : string),
    (forall opts : list update.Option,
       let o := applyOptions update.zero opts in
       (update.SigningKey o = None ->
        UpdateDID c did domain opts = (Err "signing public key is required", []))
       /\ (update.NextUpdatePublicKey o = None ->
           update.SigningKey o <> None ->
           UpdateDID c did domain opts
             = (Err "next update public key is required", []))
       /\ (update.NextUpdatePublicKey o = None ->
           snd (UpdateDID c did domain opts) = [] /\
           exists e, fst (UpdateDID c did domain opts) = Err e /\
             In e ["signing public key is required";
                   "next update public key is required"]))
    /\ (forall opts : list deactivate.Option,
          deactivate.SigningKey (applyOptions deactivate.zero opts) = None ->
          DeactivateDID c did domain opts = (Err "signing key is required", [])).
Proof.
  intros ext c did domain. split.
  - intros opts o. unfold UpdateDID. fold o. split; [|split].
    + intros H. now rewrite (isNil_None H).
    + intros H1 H0. now rewrite (isNil_Some H0), (isNil_None H1).
    + intros H1. rewrite (isNil_None H1).
      destruct (update.SigningKey o); simpl;
        (split; [reflexivity|]; eexists; split; [reflexivity | simpl; tauto]).
  - intros opts H. unfold DeactivateDID. now rewrite (isNil_None H).
Qed.

Lemma UpdateDID_DeactivateDID_required_keys_witness :
  UpdateDID (ext := Sample.ext) Sample.c "did:trustbloc:EiAx" "b.example" []
    = (Err "signing public key is required", [])
  /\ UpdateDID (ext := Sample.ext) Sample.c "did:trustbloc:EiAx" "b.example"
       [Sample.updateKeys (Some Sample.edPriv) None]
     = (Err "next update public key is required", [])
  /\ DeactivateDID (ext := Sample.ext) Sample.c "did:trustbloc:EiAx" "b.example" []
     = (Err "signing key is required", []).
Proof.
  split; [|split].
  - apply (proj1 (proj1 (UpdateDID_DeactivateDID_required_keys Sample.ext
                           Sample.c "did:trustbloc:EiAx" "b.example") [])).
    reflexivity.
  - apply (proj1 (proj2 (proj1 (UpdateDID_DeactivateDID_required_keys Sample.ext
                           Sample.c "did:trustbloc:EiAx" "b.example")
                           [Sample.updateKeys (Some Sample.edPriv) None]))).
    + reflexivity.
    + discriminate.
  - apply (proj2 (UpdateDID_DeactivateDID_required_keys Sample.ext
                    Sample.c "did:trustbloc:EiAx" "b.example") []).
    reflexivity.
Defined.

(** ** [getSigner] *)

(** C4, as stated, fails in three places: a P-256 key whose public JWK
    cannot be derived yields an error, not a signer; an elliptic-curve key
    of another curve (P-384) is not refused but given the tag ES256; and
    the error for any other type reads "key not supported". *)
Lemma getSigner_not_as_stated :
  getSigner (ext := Sample.ext)
    (Some (crypto.ECDSAPrivateKey Sample.p256KeyNoPoint)) "key1"
    = Err "invalid EC key (nil, or X/Y missing)"
  /\ (ecdsa.Curve_ (ecdsa.Public Sample.p384Key) = ecdsa.P384 /\
      exists jwk,
        getSigner (ext := Sample.ext)
          (Some (crypto.ECDSAPrivateKey Sample.p384Key)) "key1"
        = Ok (client.ecsigner_New Sample.p384Key "ES256" "key1", jwk))
  /\ (getSigner (ext := Sample.ext)
        (Some (crypto.OtherPrivateKey "*rsa.PrivateKey")) "key1"
      = Err "key not supported"
      /\ strings.Contains "key not supported" "unsupported key" = false).
Proof.
  split; [reflexivity|]. split; [split; [reflexivity|]|].
  - eexists. reflexivity.
  - split; reflexivity.
Qed.

(** C4, amended. For every elliptic-curve private key (of any curve, P-256
    included) whose public JWK can be derived, [getSigner] returns a signer
    with algorithm tag "ES256", the given key identifier and that JWK; for
    every Ed25519 private key whose public JWK can be derived, a signer
    with tag "EdDSA" and that JWK; when the derivation fails, its error is
    returned; for a key of any other type, or no key, the error is "key not
    supported". *)
Theorem getSigner_by_key_type :
  forall (ext : Externals) (keyID : string),
    (forall k jwk,
       pubkey_GetPublicKeyJWK (Some (crypto.ECDSAPublicKey (ecdsa.Public k))) = Ok jwk ->
       exists signer,
         getSigner (Some (crypto.ECDSAPrivateKey k)) keyID = Ok (signer, jwk) /\
         signer = client.ecsigner_New k "ES256" keyID /\
         client.alg signer = "ES256" /\ client.kid signer = keyID)
    /\ (forall k jwk,
         pubkey_GetPublicKeyJWK
           (Some (crypto.Ed25519PublicKey (ed25519_Public k))) = Ok jwk ->
         exists signer,
           getSigner (Some (crypto.Ed25519PrivateKey k)) keyID = Ok (signer, jwk) /\
           signer = client.edsigner_New k "EdDSA" keyID /\
           client.alg signer = "EdDSA" /\ client.kid signer = keyID)
    /\ (forall k e,
         pubkey_GetPublicKeyJWK (Some (crypto.ECDSAPublicKey (ecdsa.Public k))) = Err e ->
         getSigner (Some (crypto.ECDSAPrivateKey k)) keyID = Err e)
    /\ (forall k e,
         pubkey_GetPublicKeyJWK
           (Some (crypto.Ed25519PublicKey (ed25519_Public k))) = Err e ->
         getSigner (Some (crypto.Ed25519PrivateKey k)) keyID = Err e)
    /\ (forall goType,
         getSigner (Some (crypto.OtherPrivateKey goType)) keyID
         = Err "key not supported")
    /\ getSigner None keyID = Err "key not supported".
Proof.
  intros ext keyID. unfold getSigner.
  split; [|split; [|split; [|split; [|split]]]].
  - intros k jwk H. rewrite H. simpl. eexists. repeat split.
  - intros k jwk H. rewrite H. simpl. eexists. repeat split.
  - intros k e H. now rewrite H.
  - intros k e H. now rewrite H.
  - reflexivity.
  - reflexivity.
Qed.

Lemma getSigner_by_key_type_witness :
  (exists signer,
     getSigner (ext := Sample.ext) (Some (crypto.ECDSAPrivateKey Sample.p256Key)) "key1"
     = Ok (signer, {| jws.Kty := "EC"; jws.Crv := "P-256";
                      jws.X := "11"; jws.Y := "22" |}) /\
     signer = client.ecsigner_New Sample.p256Key "ES256" "key1" /\
     client.alg signer = "ES256" /\ client.kid signer = "key1")
  /\ (exists signer,
       getSigner (ext := Sample.ext) (Some Sample.edPriv) "key1"
       = Ok (signer, {| jws.Kty := "OKP"; jws.Crv := "Ed25519";
                        jws.X := "pub"; jws.Y := "" |}) /\
       signer = client.edsigner_New Sample.edKey "EdDSA" "key1" /\
       client.alg signer = "EdDSA" /\ client.kid signer = "key1")
  /\ getSigner (ext := Sample.ext)
       (Some (crypto.ECDSAPrivateKey Sample.p256KeyNoPoint)) "key1"
     = Err "invalid EC key (nil, or X/Y missing)".
Proof.
  split; [|split].
  - apply (proj1 (getSigner_by_key_type Sample.ext "key1")). reflexivity.
  - apply (proj1 (proj2 (getSigner_by_key_type Sample.ext "key1"))). reflexivity.
  - apply (proj1 (proj2 (proj2 (getSigner_by_key_type Sample.ext "key1")))).
    reflexivity.
Defined.

(** ** JWK unwrapping in [buildRecoverRequest] *)

Lemma wrapErr_Ok {A} prefix (r : result A) a : wrapErr prefix r = Ok a -> r = Ok a.
Proof. destruct r; simpl; congruence. Qed.

Lemma fst_ebind_Ok {A B} (m : Eff A) (k : A -> Eff B) a :
  fst m = Ok a -> fst (ebind m k) = fst (k a).
Proof. unfold ebind. now intros ->. Qed.

Lemma fst_ebind_Err {A B} (m : Eff A) (k : A -> Eff B) e :
  fst m = Err e -> ebind m k = (Err e, snd m).
Proof. unfold ebind. now intros ->. Qed.

Section RecoverFacts.

Context {ext : Externals}.

Lemma unwrapPubKeyJWK_Ok k k' : unwrapPubKeyJWK k = Ok k' -> unwrapsTo k k'.
Proof.
  unfold unwrapPubKeyJWK, unwrapsTo, GetValueFromJWK.
  destruct (jose_UnmarshalJSON (doc.Value k)) as [jwk|e]; simpl.
  - destruct (doc_publicValue (jose_Public jwk)) as [v|e]; simpl;
      intros H; inversion H. now exists v.
  - now intros [= ->].
Qed.

Lemma unwrapPubKeyJWK_Err k jwk e :
  jose_UnmarshalJSON (doc.Value k) = Ok jwk ->
  doc_publicValue (jose_Public jwk) = Err e ->
  unwrapPubKeyJWK k = Err e.
Proof.
  intros H1 H2. unfold unwrapPubKeyJWK, GetValueFromJWK.
  now rewrite H1; simpl; rewrite H2.
Qed.

Lemma unwrapPubKeyJWK_skip k e :
  jose_UnmarshalJSON (doc.Value k) = Err e -> unwrapPubKeyJWK k = Ok k.
Proof. intros H. unfold unwrapPubKeyJWK. now rewrite H. Qed.

Lemma unwrapPubKeyJWK_total k :
  (forall jwk, jose_UnmarshalJSON (doc.Value k) = Ok jwk ->
               exists v, doc_publicValue (jose_Public jwk) = Ok v) ->
  exists k', unwrapPubKeyJWK k = Ok k'.
Proof.
  intros H. unfold unwrapPubKeyJWK, GetValueFromJWK.
  destruct (jose_UnmarshalJSON (doc.Value k)) as [jwk|e]; [|now exists k].
  destruct (H jwk eq_refl) as [v ->]. simpl. now eexists.
Qed.

Lemma unwrapKeys_Ok keys : forall acc out,
  unwrapKeys keys acc = Ok out ->
  exists parsed, out = (acc ++ parsed)%list /\ Forall2 unwrapsTo keys parsed.
Proof.
  induction keys as [|k keys IH]; intros acc out; simpl.
  - intros [= <-]. exists []. now rewrite app_nil_r.
  - destruct (unwrapPubKeyJWK k) as [k'|e] eqn:Hk; [|discriminate].
    intros H. destruct (IH _ _ H) as (parsed & -> & HF).
    exists (k' :: parsed). rewrite <- app_assoc. split; [reflexivity|].
    constructor; [now apply unwrapPubKeyJWK_Ok | exact HF].
Qed.

Lemma unwrapKeys_fails keys : forall acc k e,
  In k keys -> unwrapPubKeyJWK k = Err e ->
  exists e', unwrapKeys keys acc = Err e'.
Proof.
  induction keys as [|k0 keys IH]; intros acc k e; simpl; [tauto|].
  intros [->|Hin] Hk.
  - rewrite Hk. now exists e.
  - destruct (unwrapPubKeyJWK k0) as [k0'|e0]; [eauto | now exists e0].
Qed.

Lemma unwrapKeys_total keys : forall acc,
  (forall k, In k keys -> exists k', unwrapPubKeyJWK k = Ok k') ->
  exists out, unwrapKeys keys acc = Ok out.
Proof.
  induction keys as [|k keys IH]; intros acc H; simpl; [now eexists|].
  destruct (H k (or_introl eq_refl)) as [k' ->].
  apply IH. intros k0 Hin. apply H. now right.
Qed.

End RecoverFacts.

(** One step of a builder whose result is known to be a success: the
    next pure call succeeded too. *)
Ltac builder_step H :=
  match type of H with
  | context [ebind (lift ?r) _] =>
      let E := fresh "E" in
      destruct r eqn:E; [rewrite ebind_lift_Ok in H | discriminate H];
      cbv beta in H
  end.

(** C5, as stated, fails: a key whose value looks like a JWK but is
    malformed (here an OKP key without [x]) does not parse, is placed into
    the document as it came, and the build succeeds (the keys committed to
    differ from the key that signs, as the request constructor asks). *)
Lemma malformed_jwk_does_not_fail_recover :
  (exists e, jose_UnmarshalJSON (Externals := Sample.ext)
               (doc.Value (Sample.docKey "{kty:OKP,crv:Ed25519}")) = Err e)
  /\ unwrapKeys (ext := Sample.ext) [Sample.docKey "{kty:OKP,crv:Ed25519}"] []
     = Ok [Sample.docKey "{kty:OKP,crv:Ed25519}"]
  /\ buildRecoverRequest (ext := Sample.ext) "did:trustbloc:EiAx" Sample.sha256
       (Sample.recoverOpts [Sample.docKey "{kty:OKP,crv:Ed25519}"])
     = (Ok "recover:EiAx:reveal(pub):{{kty:OKP,crv:Ed25519}}", []).
Proof.
  split; [eexists; reflexivity|]. split; reflexivity.
Qed.

(** C5, amended. In a Recover build, every supplied public key whose value
    parses as a JWK has the JWK's public value put in place of its raw
    value, and every key whose value does not parse as a JWK (a malformed
    JWK-looking value included) is kept as it is, before the keys are
    placed, in order, into the new DID document whose bytes the request
    carries. The unwrapping of the keys fails, and the whole build with
    it, exactly when some supplied value parses as a JWK but its public
    value cannot be extracted; a value that does not parse never fails
    it. *)
Theorem recover_unwraps_public_keys :
  forall (ext : Externals) (did : string) (cfg : models.SidetreeConfig)
         (opts : recovery.Opts),
    (forall req,
       fst (buildRecoverRequest did cfg opts) = Ok req ->
       exists parsed docBytes info,
         Forall2 unwrapsTo (recovery.PublicKeys opts) parsed /\
         doc_JSONBytes {| doc.PublicKey_ := parsed;
                          doc.Service := recovery.Services opts |} = Ok docBytes /\
         client.r_OpaqueDocument info = docBytes /\
         client_NewRecoverRequest info = Ok req)
    /\ (forall k jwk e,
          In k (recovery.PublicKeys opts) ->
          jose_UnmarshalJSON (doc.Value k) = Ok jwk ->
          doc_publicValue (jose_Public jwk) = Err e ->
          exists e', buildRecoverRequest did cfg opts = (Err e', []))
    /\ (forall k e,
          In k (recovery.PublicKeys opts) ->
          jose_UnmarshalJSON (doc.Value k) = Err e ->
          unwrapPubKeyJWK k = Ok k)
    /\ ((exists parsed, unwrapKeys (recovery.PublicKeys opts) [] = Ok parsed)
        <-> (forall k jwk,
               In k (recovery.PublicKeys opts) ->
               jose_UnmarshalJSON (doc.Value k) = Ok jwk ->
               exists v, doc_publicValue (jose_Public jwk) = Ok v))
    /\ (forall parsed,
          unwrapKeys (recovery.PublicKeys opts) [] = Ok parsed ->
          Forall2 unwrapsTo (recovery.PublicKeys opts) parsed).
Proof.
  intros ext did cfg opts. split; [|split; [|split; [|split]]].
  - intros req H. unfold buildRecoverRequest in H.
    builder_step H. rename a into parsed.
    destruct (unwrapKeys_Ok _ _ E) as (parsed' & Hp & HF). simpl in Hp. subst parsed'.
    builder_step H. rename a into docBytes. apply wrapErr_Ok in E0.
    builder_step H. destruct a as [rc uc].
    builder_step H. destruct a as [signer recoveryKey].
    builder_step H.
    match type of H with
    | fst (ebind ?m ?k) = _ =>
        rewrite (@fst_ebind_Ok _ _ m k
                   (if String.eqb (recovery.RevealValue opts) ""
                    then fst (defaultRevealValue recoveryKey
                                (models.MultiHashAlgorithm cfg))
                    else recovery.RevealValue opts)) in H
          by (now destruct (String.eqb (recovery.RevealValue opts) ""))
    end.
    builder_step H. apply wrapErr_Ok in E4. simpl in H. injection H as ->.
    eexists parsed, docBytes, _. repeat split; [exact HF | exact E0 | | exact E4].
    reflexivity.
  - intros k jwk e Hin Hp Hv.
    destruct (unwrapKeys_fails _ [] _ Hin (unwrapPubKeyJWK_Err _ Hp Hv)) as [e' He'].
    exists e'. unfold buildRecoverRequest. now rewrite He'.
  - intros k e _ Hp. now apply (unwrapPubKeyJWK_skip _ Hp).
  - split.
    + intros [parsed Hp] k jwk Hin Hj.
      destruct (doc_publicValue (jose_Public jwk)) as [v|e] eqn:Hv; [now exists v|].
      destruct (unwrapKeys_fails _ [] _ Hin (unwrapPubKeyJWK_Err _ Hj Hv))
        as [e' He'].
      rewrite He' in Hp. discriminate Hp.
    + intros Hall. apply unwrapKeys_total.
      intros k Hin. apply unwrapPubKeyJWK_total. intros jwk Hj.
      now apply (Hall k jwk).
  - intros parsed Hp.
    destruct (unwrapKeys_Ok _ _ Hp) as (parsed' & -> & HF). exact HF.
Qed.

Lemma recover_unwraps_public_keys_witness :
  (exists parsed docBytes info,
     Forall2 (unwrapsTo (ext := Sample.ext))
       [Sample.docKey "{kty:OKP,crv:Ed25519,x:abc}"; Sample.docKey "raw-bytes"]
       parsed /\
     doc_JSONBytes (Externals := Sample.ext)
       {| doc.PublicKey_ := parsed; doc.Service := [] |} = Ok docBytes /\
     client.r_OpaqueDocument info = docBytes /\
     client_NewRecoverRequest (Externals := Sample.ext) info
     = Ok "recover:EiAx:reveal(pub):{abc,raw-bytes}")
  /\ (exists e',
        buildRecoverRequest (ext := Sample.ext) "did:trustbloc:EiAx" Sample.sha256
          (Sample.recoverOpts
             [Sample.docKey "raw-bytes"; Sample.docKey "{kty:oct,k:secret}"])
        = (Err e', [])).
Proof.
  split.
  - apply (proj1 (recover_unwraps_public_keys Sample.ext "did:trustbloc:EiAx"
                    Sample.sha256
                    (Sample.recoverOpts
                       [Sample.docKey "{kty:OKP,crv:Ed25519,x:abc}";
                        Sample.docKey "raw-bytes"]))).
    reflexivity.
  - apply (proj1 (proj2 (recover_unwraps_public_keys Sample.ext
                           "did:trustbloc:EiAx" Sample.sha256
                           (Sample.recoverOpts
                              [Sample.docKey "raw-bytes";
                               Sample.docKey "{kty:oct,k:secret}"])))
             (Sample.docKey "{kty:oct,k:secret}")
             {| jose.Key := Some (jose.Symmetric "secret"); jose.KeyID := "" |}
             "unsupported public key type in JWK").
    + simpl. tauto.
    + reflexivity.
    + reflexivity.
Defined.

(** ** The patch assembler *)

Section PatchFacts.

Context {ext : Externals}.

Lemma NewPatch_action a s p : NewPatch a s = Ok p -> patch.action p = a.
Proof.
  unfold NewPatch. destruct (patch_accept a s); simpl; [|discriminate].
  now intros [= <-].
Qed.

Lemma createPatch_action a o p : createPatch a o = Ok p -> patch.action p = a.
Proof.
  destruct a; simpl;
    unfold createRemovePublicKeysPatch, createRemoveServicesPatch,
           createAddServicesPatch, createAddPublicKeysPatch;
    repeat match goal with
           | |- context [rbind ?r _] =>
               lazymatch r with
               | rbind _ _ => fail
               | _ => destruct r; simpl; [|discriminate]
               end
           end;
    apply NewPatch_action.
Qed.

(** [createUpdatePatches] is the assembler of the specification run on
    the fixed order. *)
Lemma createUpdatePatches_assemble o :
  createUpdatePatches o = assemble o patchOrder [].
Proof.
  unfold createUpdatePatches, patchOrder, assemble, requested, createPatch.
  destruct (negb (length (update.RemovePublicKeys o) =? 0)%nat);
    [destruct (createRemovePublicKeysPatch o); simpl; [|reflexivity]|simpl];
    (destruct (negb (length (update.RemoveServices o) =? 0)%nat);
     [destruct (createRemoveServicesPatch o); simpl; [|reflexivity]|simpl]);
    (destruct (negb (length (update.AddServices o) =? 0)%nat);
     [destruct (createAddServicesPatch o); simpl; [|reflexivity]|simpl]);
    (destruct (negb (length (update.AddPublicKeys o) =? 0)%nat);
     [destruct (createAddPublicKeysPatch o); simpl; reflexivity|reflexivity]).
Qed.

Lemma assemble_Ok o order : forall acc out,
  assemble o order acc = Ok out ->
  exists l, out = (acc ++ l)%list /\
    map patch.action l = filter (requested o) order /\
    Forall (fun p => createPatch (patch.action p) o = Ok p) l.
Proof.
  induction order as [|a rest IH]; intros acc out; simpl.
  - intros [= <-]. exists []. rewrite app_nil_r. now repeat constructor.
  - destruct (requested o a).
    + destruct (createPatch a o) as [p|e] eqn:Hp; [|discriminate].
      intros H. destruct (IH _ _ H) as (l & -> & Hm & HF).
      pose proof (createPatch_action _ _ Hp) as Ha.
      exists (p :: l). rewrite <- app_assoc. split; [reflexivity|]. split.
      * simpl. now rewrite Ha, Hm.
      * constructor; [now rewrite Ha | exact HF].
    + apply IH.
Qed.

Lemma assemble_total o order : forall acc,
  (forall a, In a order -> requested o a = true -> exists p, createPatch a o = Ok p) ->
  exists out, assemble o order acc = Ok out.
Proof.
  induction order as [|a rest IH]; intros acc H; simpl; [now eexists|].
  destruct (requested o a) eqn:Hr.
  - destruct (H a (or_introl eq_refl) Hr) as [p ->].
    apply IH. intros b Hb. apply H. now right.
  - apply IH. intros b Hb. apply H. now right.
Qed.

(** The error of the first category that fails is the one returned. *)
Lemma assemble_first_failure o before a after e : forall acc,
  requested o a = true -> createPatch a o = Err e ->
  (forall b, In b before -> requested o b = true -> exists p, createPatch b o = Ok p) ->
  assemble o (before ++ a :: after) acc = Err e.
Proof.
  induction before as [|b before IH]; intros acc Hr He Hb; simpl.
  - now rewrite Hr, He.
  - destruct (requested o b) eqn:Hrb.
    + destruct (Hb b (or_introl eq_refl) Hrb) as [p ->].
      apply IH; trivial. intros b' Hin. apply Hb. now right.
    + apply IH; trivial. intros b' Hin. apply Hb. now right.
Qed.

Lemma assemble_failure o order : forall acc a e,
  In a order -> requested o a = true -> createPatch a o = Err e ->
  exists b e', In b order /\ requested o b = true /\ createPatch b o = Err e' /\
               assemble o order acc = Err e'.
Proof.
  induction order as [|a0 rest IH]; intros acc a e; simpl; [tauto|].
  intros Hin Hr He.
  destruct (requested o a0) eqn:Hr0.
  - destruct (createPatch a0 o) as [p|e0] eqn:Hp0.
    + destruct Hin as [->|Hin]; [congruence|].
      destruct (IH (acc ++ [p])%list a e Hin Hr He) as (b & e' & ? & ? & ? & ?).
      exists b, e'. auto.
    + exists a0, e0. auto.
  - destruct Hin as [->|Hin]; [congruence|].
    destruct (IH acc a e Hin Hr He) as (b & e' & ? & ? & ? & ?).
    exists b, e'. auto.
Qed.

(** The categories that precede [a] in the fixed order. *)
Lemma patchOrder_split a :
  exists before after,
    patchOrder = (before ++ a :: after)%list /\
    forall b, In b before -> (rank b < rank a)%nat.
Proof.
  destruct a.
  - exists [], [patch.RemoveServiceEndpoints; patch.AddServiceEndpoints;
                patch.AddPublicKeys]. split; [reflexivity | simpl; tauto].
  - exists [patch.RemovePublicKeys],
           [patch.AddServiceEndpoints; patch.AddPublicKeys].
    split; [reflexivity|]. simpl. intros b [<-|[]]. simpl. lia.
  - exists [patch.RemovePublicKeys; patch.RemoveServiceEndpoints],
           [patch.AddPublicKeys].
    split; [reflexivity|]. simpl. intros b [<-|[<-|[]]]; simpl; lia.
  - exists [patch.RemovePublicKeys; patch.RemoveServiceEndpoints;
            patch.AddServiceEndpoints], [].
    split; [reflexivity|]. simpl. intros b [<-|[<-|[<-|[]]]]; simpl; lia.
Qed.

Lemma In_patchOrder a : In a patchOrder.
Proof. destruct a; simpl; tauto. Qed.

End PatchFacts.

(** C2. The patch assembler emits no patch for a category whose collection
    is empty and exactly one, built by that category's builder, for each
    category whose collection is not; the patches come in the order
    remove-public-keys, remove-services, add-services, add-public-keys.
    It succeeds when every category at work succeeds; a failure of
    serialization or patch construction in a category aborts the assembly,
    with the error of the first category that fails. *)
Theorem createUpdatePatches_categories :
  forall (ext : Externals) (o : update.Opts),
    (forall patches,
       createUpdatePatches o = Ok patches ->
       map patch.action patches = filter (requested o) patchOrder /\
       Forall (fun p => createPatch (patch.action p) o = Ok p) patches)
    /\ ((forall a, requested o a = true -> exists p, createPatch a o = Ok p) ->
        exists patches, createUpdatePatches o = Ok patches)
    /\ (forall a e,
          requested o a = true -> createPatch a o = Err e ->
          (forall b, (rank b < rank a)%nat -> requested o b = true ->
                     exists p, createPatch b o = Ok p) ->
          createUpdatePatches o = Err e)
    /\ (forall a e,
          requested o a = true -> createPatch a o = Err e ->
          exists b e', requested o b = true /\ createPatch b o = Err e' /\
                       createUpdatePatches o = Err e').
Proof.
  intros ext o. rewrite createUpdatePatches_assemble.
  split; [|split; [|split]].
  - intros patches H.
    destruct (assemble_Ok _ _ _ H) as (l & -> & Hm & HF). now split.
  - intros H. apply assemble_total. intros a _. apply H.
  - intros a e Hr He Hb.
    destruct (patchOrder_split a) as (before & after & -> & Hlt).
    apply assemble_first_failure; trivial.
    intros b Hin. apply Hb. now apply Hlt.
  - intros a e Hr He.
    destruct (assemble_failure o patchOrder [] a (In_patchOrder a) Hr He)
      as (b & e' & _ & ? & ? & ?).
    now exists b, e'.
Qed.

Lemma createUpdatePatches_categories_witness :
  (map patch.action
     [ {| patch.action := patch.RemovePublicKeys; patch.content := "[key7]" |};
       {| patch.action := patch.AddServiceEndpoints; patch.content := "[svc1]" |} ]
   = filter (requested Sample.updateOpts) patchOrder /\
   Forall (fun p => createPatch (ext := Sample.ext) (patch.action p)
                      Sample.updateOpts = Ok p)
     [ {| patch.action := patch.RemovePublicKeys; patch.content := "[key7]" |};
       {| patch.action := patch.AddServiceEndpoints; patch.content := "[svc1]" |} ])
  /\ createUpdatePatches (ext := Sample.extNoRaw) Sample.updateOpts
     = Err "json: unsupported value".
Proof.
  split.
  - apply (proj1 (createUpdatePatches_categories Sample.ext Sample.updateOpts)).
    reflexivity.
  - apply (proj1 (proj2 (proj2
             (createUpdatePatches_categories Sample.extNoRaw Sample.updateOpts)))
             patch.AddServiceEndpoints "json: unsupported value").
    + reflexivity.
    + reflexivity.
    + intros b Hb Hr. destruct b; simpl in Hb; try lia.
      * eexists. reflexivity.
      * discriminate Hr.
Defined.

(** ** The default reveal value *)

Lemma snd_ebind_lift {A B} (r : result A) (k : A -> Eff B) :
  snd (ebind (lift r) k) = match r with Ok a => snd (k a) | Err _ => [] end.
Proof. now destruct r. Qed.

(** Walks down a builder, one pure call after the other. *)
Ltac builder_walk :=
  repeat first
    [ rewrite snd_ebind_lift
    | match goal with
      | |- match ?r with Ok _ => _ | Err _ => _ end = _ =>
          destruct r; [cbv beta | reflexivity]
      | |- context [match ?p with pair _ _ => _ end] => destruct p
      end ].

Section RevealFacts.

Context {ext : Externals}.

Lemma buildUpdateRequest_explicit_reveal f did cfg o :
  update.RevealValue o <> "" ->
  buildUpdateRequest (ext := withGetRevealValue f ext) did cfg o
    = buildUpdateRequest did cfg o
  /\ snd (buildUpdateRequest did cfg o) = [].
Proof.
  intros H. apply String.eqb_neq in H. unfold buildUpdateRequest.
  rewrite !H. split; [reflexivity|]. builder_walk.
  rewrite ebind_ret. reflexivity.
Qed.

Lemma buildRecoverRequest_explicit_reveal f did cfg o :
  recovery.RevealValue o <> "" ->
  buildRecoverRequest (ext := withGetRevealValue f ext) did cfg o
    = buildRecoverRequest did cfg o
  /\ snd (buildRecoverRequest did cfg o) = [].
Proof.
  intros H. apply String.eqb_neq in H. unfold buildRecoverRequest.
  rewrite !H. split; [reflexivity|]. builder_walk.
  rewrite ebind_ret. builder_walk. reflexivity.
Qed.

Lemma buildDeactivateRequest_explicit_reveal f did cfg o :
  deactivate.RevealValue o <> "" ->
  buildDeactivateRequest (ext := withGetRevealValue f ext) did cfg o
    = buildDeactivateRequest did cfg o
  /\ snd (buildDeactivateRequest did cfg o) = [].
Proof.
  intros H. apply String.eqb_neq in H. unfold buildDeactivateRequest.
  rewrite !H. split; [reflexivity|]. builder_walk.
  rewrite ebind_ret. reflexivity.
Qed.

End RevealFacts.

(** C1. [defaultRevealValue] returns a string and never an error: when the
    derivation of the reveal value fails it returns the empty string, the
    failure showing only as a log line, and when the derivation succeeds it
    returns the derived value. In the three builders the default is
    computed only when the reveal value of the options is empty: with a
    reveal value supplied, the outcome of a build does not depend on the
    derivation and nothing is logged. *)
Theorem defaultRevealValue_soft_fail :
  forall (ext : Externals) (jwk : jws.JWK) (multihashCode : N),
    (forall err,
       commitment_GetRevealValue jwk multihashCode = Err err ->
       defaultRevealValue jwk multihashCode
       = ("", [LogError ("Failed to default reveal value: " ++ err)]))
    /\ (forall revealValue,
          commitment_GetRevealValue jwk multihashCode = Ok revealValue ->
          defaultRevealValue jwk multihashCode = (revealValue, []))
    /\ (exists revealValue,
          fst (logged (defaultRevealValue jwk multihashCode)) = Ok revealValue)
    /\ (forall f did cfg,
          (forall o, update.RevealValue o <> "" ->
             buildUpdateRequest (ext := withGetRevealValue f ext) did cfg o
               = buildUpdateRequest did cfg o
             /\ snd (buildUpdateRequest did cfg o) = [])
          /\ (forall o, recovery.RevealValue o <> "" ->
                buildRecoverRequest (ext := withGetRevealValue f ext) did cfg o
                  = buildRecoverRequest did cfg o
                /\ snd (buildRecoverRequest did cfg o) = [])
          /\ (forall o, deactivate.RevealValue o <> "" ->
                buildDeactivateRequest (ext := withGetRevealValue f ext) did cfg o
                  = buildDeactivateRequest did cfg o
                /\ snd (buildDeactivateRequest did cfg o) = [])).
Proof.
  intros ext jwk multihashCode. unfold defaultRevealValue.
  split; [|split; [|split]].
  - intros err H. now rewrite H.
  - intros v H. now rewrite H.
  - now eexists.
  - intros f did cfg. split; [|split]; intros o H.
    + now apply buildUpdateRequest_explicit_reveal.
    + now apply buildRecoverRequest_explicit_reveal.
    + now apply buildDeactivateRequest_explicit_reveal.
Qed.

Lemma defaultRevealValue_soft_fail_witness :
  defaultRevealValue (ext := Sample.ext) Sample.edJWK 99
    = ("", [LogError "Failed to default reveal value: algorithm not supported"])
  /\ defaultRevealValue (ext := Sample.ext) Sample.edJWK 18 = ("reveal(pub)", [])
  /\ snd (buildDeactivateRequest (ext := Sample.ext) "did:trustbloc:EiAx"
            {| models.MultiHashAlgorithm := 99 |} (Sample.deactivateOpts "r1")) = [].
Proof.
  split; [|split].
  - apply (proj1 (defaultRevealValue_soft_fail Sample.ext Sample.edJWK 99)).
    reflexivity.
  - apply (proj1 (proj2 (defaultRevealValue_soft_fail Sample.ext Sample.edJWK 18))).
    reflexivity.
  - apply (proj2 (proj2 (proj2 (defaultRevealValue_soft_fail Sample.ext
                                  Sample.edJWK 18)))
             (fun _ _ => Ok "other") "did:trustbloc:EiAx"
             {| models.MultiHashAlgorithm := 99 |}).
    discriminate.
Defined.

(** ** [sendRequest] *)

Lemma fst_ebind {A B} (m : Eff A) (k : A -> Eff B) :
  fst (ebind m k) = match fst m with Ok a => fst (k a) | Err e => Err e end.
Proof. unfold ebind. now destruct (fst m). Qed.

Lemma snd_ebind {A B} (m : Eff A) (k : A -> Eff B) :
  snd (ebind m k)
  = (snd m ++ match fst m with Ok a => snd (k a) | Err _ => [] end)%list.
Proof. unfold ebind. destruct (fst m); simpl; [reflexivity | now rewrite app_nil_r]. Qed.

Section SendFacts.

Context {ext : Externals}.

Lemma sendRequest_cases c req endpointURL :
  sendRequest c req endpointURL =
  match http_NewRequest "POST" (endpointURL ++ "/operations") req with
  | Err e => (Err ("failed to create http request: " ++ e), [])
  | Ok r0 =>
      match Do c (outgoing c r0) with
      | Err e => (Err ("failed to send request: " ++ e), [CallDo (outgoing c r0)])
      | Ok resp =>
          (match http.ReadAll resp with
           | Err e => Err ("failed to read response : " ++ e)
           | Ok responseBytes =>
               if (http.StatusCode resp =? http.StatusOK)%Z then Ok responseBytes
               else Err ("got unexpected response from " ++ endpointURL
                         ++ " status '" ++ itoa (http.StatusCode resp)
                         ++ "' body " ++ responseBytes)
           end,
           CallDo (outgoing c r0) :: closeResponseBody resp)
      end
  end.
Proof.
  unfold sendRequest.
  destruct (http_NewRequest "POST" (endpointURL ++ "/operations") req) as [r0|e];
    [|reflexivity].
  simpl wrapErr. rewrite ebind_lift_Ok. fold (outgoing c r0).
  destruct (Do c (outgoing c r0)) as [resp|e]; [|reflexivity].
  simpl wrapErr. rewrite ebind_call_Ok. unfold deferred.
  destruct (http.ReadAll resp) as [body|e]; simpl; [|reflexivity].
  now destruct (http.StatusCode resp =? http.StatusOK)%Z.
Qed.

Lemma closeResponseBody_logs resp : forallb isLog (closeResponseBody resp) = true.
Proof. unfold closeResponseBody. now destruct (http.Close resp). Qed.

End SendFacts.

Section SendProperties.

Context {ext : Externals}.

Lemma closeResponseBody_no_call resp r : ~ In (CallDo r) (closeResponseBody resp).
Proof.
  unfold closeResponseBody. destruct (http.Close resp); simpl; [|tauto].
  intros [H|[]]. discriminate H.
Qed.

Lemma sendRequest_sent c req endpointURL r :
  In (CallDo r) (snd (sendRequest c req endpointURL)) ->
  exists r0,
    http_NewRequest "POST" (endpointURL ++ "/operations") req = Ok r0 /\
    r = outgoing c r0.
Proof.
  rewrite sendRequest_cases.
  destruct (http_NewRequest "POST" (endpointURL ++ "/operations") req) as [r0|e];
    [|simpl; tauto].
  intros H. exists r0. split; [reflexivity|].
  destruct (Do c (outgoing c r0)) as [resp|e]; simpl in H.
  - destruct H as [[= <-]|H]; [reflexivity|].
    now apply closeResponseBody_no_call in H.
  - destruct H as [[= <-]|[]]. reflexivity.
Qed.

Lemma outgoing_content_type c r0 :
  In ("Content-Type", "application/json") (http.Header (outgoing c r0)) /\
  forall v, In ("Content-Type", v) (http.Header (outgoing c r0)) ->
            v = "application/json".
Proof.
  assert (H1 : forall v,
             In ("Content-Type", v)
                (http.Header (http.setHeader "Content-Type" "application/json" r0)) ->
             v = "application/json").
  { intros v. simpl. rewrite in_app_iff, filter_In. simpl.
    intros [[_ H]|[[= <-]|[]]]; [discriminate H | reflexivity]. }
  unfold outgoing. destruct (negb (String.eqb (authToken c) "")); simpl.
  - split.
    + rewrite !in_app_iff. left. right. now left.
    + intros v. rewrite in_app_iff. intros [H|[[=]|[]]]. now apply H1.
  - split; [|exact H1]. rewrite in_app_iff. right. now left.
Qed.

End SendProperties.

(** X1. [sendRequest] sends at most one HTTP request and never tries
    again: what it leaves behind is no event at all, exactly when
    [http.NewRequest] refused the request, or one call of [Do] followed by
    log lines only. *)
Theorem sendRequest_sends_at_most_once :
  forall (ext : Externals) (c : Client) (req endpointURL : string),
  exists request closing,
    snd (sendRequest c req endpointURL) = (request ++ closing)%list /\
    atMostOne isCallDo request /\
    forallb isLog closing = true /\
    (request = [] -> closing = []) /\
    (request = [] <->
     exists e, http_NewRequest "POST" (endpointURL ++ "/operations") req = Err e).
Proof.
  intros ext c req endpointURL. rewrite sendRequest_cases.
  destruct (http_NewRequest "POST" (endpointURL ++ "/operations") req) as [r0|e].
  - destruct (Do c (outgoing c r0)) as [resp|e].
    + exists [CallDo (outgoing c r0)], (closeResponseBody resp).
      split; [reflexivity|]. split; [right; now eexists|].
      split; [apply closeResponseBody_logs|].
      split; [discriminate|]. split; [discriminate | intros [e He]; discriminate He].
    + exists [CallDo (outgoing c r0)], [].
      split; [reflexivity|]. split; [right; now eexists|].
      split; [reflexivity|].
      split; [discriminate|]. split; [discriminate | intros [e' He]; discriminate He].
  - exists [], []. split; [reflexivity|]. split; [now left|].
    split; [reflexivity|]. split; [reflexivity|]. split; [now exists e | reflexivity].
Qed.

(** X2. The request [sendRequest] hands to the HTTP client is the one
    [http.NewRequest] built for a POST of the payload to
    [endpointURL/operations]: same method, URL and body, with exactly one
    content type, application/json; the Authorization header carries the
    client's token when there is one, and none is added when the token is
    empty. *)
Theorem sendRequest_request_sent :
  forall (ext : Externals) (c : Client) (req endpointURL : string)
         (r : http.Request),
    In (CallDo r) (snd (sendRequest c req endpointURL)) ->
    exists r0,
      http_NewRequest "POST" (endpointURL ++ "/operations") req = Ok r0 /\
      http.Method r = http.Method r0 /\
      http.URL r = http.URL r0 /\
      http.Body r = http.Body r0 /\
      In ("Content-Type", "application/json") (http.Header r) /\
      (forall v, In ("Content-Type", v) (http.Header r) -> v = "application/json") /\
      (authToken c <> "" -> In ("Authorization", authToken c) (http.Header r)) /\
      (authToken c = "" ->
       forall v, In ("Authorization", v) (http.Header r) ->
                 In ("Authorization", v) (http.Header r0)).
Proof.
  intros ext c req endpointURL r H.
  destruct (sendRequest_sent _ _ _ _ H) as (r0 & Hr0 & ->).
  exists r0. split; [exact Hr0|].
  destruct (outgoing_content_type c r0) as [Hc1 Hc2].
  repeat (split; [first [exact Hc1 | exact Hc2
                        | unfold outgoing;
                          now destruct (negb (String.eqb (authToken c) ""))]|]).
  split.
  - intros Ht. apply String.eqb_neq in Ht. unfold outgoing. rewrite Ht. simpl.
    rewrite in_app_iff. right. now left.
  - intros Ht v. unfold outgoing. rewrite Ht. simpl.
    rewrite in_app_iff, filter_In. intros [[Hin _]|[[=]|[]]]. exact Hin.
Qed.

Lemma sendRequest_request_sent_witness :
  exists r0,
    http_NewRequest (Externals := Sample.ext) "POST"
      ("https://a.example" ++ "/operations") "payload" = Ok r0 /\
    http.Method r0 = "POST" /\
    http.URL r0 = "https://a.example/operations" /\
    http.Body r0 = "payload".
Proof.
  destruct (sendRequest_request_sent Sample.ext Sample.c "payload"
              "https://a.example"
              {| http.Method := "POST";
                 http.URL := "https://a.example/operations";
                 http.Header := [("Content-Type", "application/json")];
                 http.Body := "payload" |}
              ltac:(left; reflexivity))
    as (r0 & H0 & Hm & Hu & Hb & _).
  exists r0. split; [exact H0|]. split; [now rewrite <- Hm|].
  split; [now rewrite <- Hu | now rewrite <- Hb].
Defined.

Section SendInversion.

Context {ext : Externals}.

Lemma sendRequest_Ok_inv (c : Client) (req endpointURL body : string) :
  fst (sendRequest c req endpointURL) = Ok body ->
  exists r resp,
    snd (sendRequest c req endpointURL) = CallDo r :: closeResponseBody resp /\
    Do c r = Ok resp /\
    http.StatusCode resp = 200 /\
    http.ReadAll resp = Ok body.
Proof.
  rewrite sendRequest_cases.
  destruct (http_NewRequest "POST" (endpointURL ++ "/operations") req) as [r0|e];
    [|discriminate].
  destruct (Do c (outgoing c r0)) as [resp|e] eqn:HDo; [|discriminate].
  simpl. destruct (http.ReadAll resp) as [b|e] eqn:Hread; [|discriminate].
  destruct (Z.eqb_spec (http.StatusCode resp) http.StatusOK) as [Hs|Hs];
    [|discriminate].
  intros [= <-]. now exists (outgoing c r0), resp.
Qed.

Lemma sendRequest_shape (c : Client) (req endpointURL : string) :
  exists request closing,
    snd (sendRequest c req endpointURL) = (request ++ closing)%list /\
    atMostOne isCallDo request /\
    forallb isLog closing = true /\
    (request = [] -> closing = []).
Proof.
  rewrite sendRequest_cases.
  destruct (http_NewRequest "POST" (endpointURL ++ "/operations") req) as [r0|e].
  - destruct (Do c (outgoing c r0)) as [resp|e].
    + exists [CallDo (outgoing c r0)], (closeResponseBody resp).
      split; [reflexivity|]. split; [right; now eexists|].
      split; [apply closeResponseBody_logs | discriminate].
    + exists [CallDo (outgoing c r0)], [].
      split; [reflexivity|]. split; [right; now eexists|].
      split; [reflexivity | discriminate].
  - exists [], []. split; [reflexivity|]. split; [now left|]. now split.
Qed.

End SendInversion.

(** X3. [sendRequest] returns a body only when one request went out, the
    HTTP client answered it with status 200 and the body it returns is the
    one read from that response. *)
Theorem sendRequest_success_means_200 :
  forall (ext : Externals) (c : Client) (req endpointURL body : string),
    fst (sendRequest c req endpointURL) = Ok body ->
    exists r resp,
      snd (sendRequest c req endpointURL) = CallDo r :: closeResponseBody resp /\
      Do c r = Ok resp /\
      http.StatusCode resp = 200 /\
      http.ReadAll resp = Ok body.
Proof.
  intros ext c req endpointURL body. apply sendRequest_Ok_inv.
Qed.

Lemma sendRequest_success_means_200_witness :
  exists r resp,
    snd (sendRequest (ext := Sample.ext) Sample.c "payload" "https://a.example")
      = CallDo r :: closeResponseBody resp /\
    Do Sample.c r = Ok resp /\
    http.StatusCode resp = 200 /\
    http.ReadAll resp = Ok "{}".
Proof.
  apply (@sendRequest_success_means_200 Sample.ext Sample.c "payload"
           "https://a.example" "{}").
  reflexivity.
Defined.

(** X4. A response that cannot be read, or whose status is not 200, makes
    [sendRequest] fail: with the read error after "failed to read
    response : ", or with a message that gives the endpoint, the status
    code and the body received. *)
Theorem sendRequest_bad_response :
  forall (ext : Externals) (c : Client) (req endpointURL : string)
         (r : http.Request) (resp : http.Response),
    In (CallDo r) (snd (sendRequest c req endpointURL)) ->
    Do c r = Ok resp ->
    (forall e, http.ReadAll resp = Err e ->
       fst (sendRequest c req endpointURL)
       = Err ("failed to read response : " ++ e))
    /\ (forall body, http.ReadAll resp = Ok body ->
          http.StatusCode resp <> 200 ->
          fst (sendRequest c req endpointURL)
          = Err ("got unexpected response from " ++ endpointURL ++ " status '"
                 ++ itoa (http.StatusCode resp) ++ "' body " ++ body)).
Proof.
  intros ext c req endpointURL r resp Hin HDo.
  destruct (sendRequest_sent _ _ _ _ Hin) as (r0 & Hr0 & ->).
  rewrite sendRequest_cases, Hr0, HDo. simpl. split.
  - intros e ->. reflexivity.
  - intros body -> Hs.
    now destruct (Z.eqb_spec (http.StatusCode resp) http.StatusOK).
Qed.

Lemma sendRequest_bad_response_witness :
  fst (sendRequest (ext := Sample.ext) (withClose (fun _ => None) Sample.down)
         "payload" "https://a.example")
  = Err "got unexpected response from https://a.example status '503' body busy".
Proof.
  apply (proj2 (@sendRequest_bad_response Sample.ext
                  (withClose (fun _ => None) Sample.down)
                  "payload" "https://a.example"
                  {| http.Method := "POST";
                     http.URL := "https://a.example/operations";
                     http.Header := [("Content-Type", "application/json");
                                     ("Authorization", "Bearer t0")];
                     http.Body := "payload" |}
                  {| http.StatusCode := 503; http.ReadAll := Ok "busy";
                     http.Close := None |}
                  ltac:(left; reflexivity) eq_refl) "busy").
  - reflexivity.
  - discriminate.
Defined.

(** X5. An error of closing the response body is logged and never changes
    what [sendRequest] returns: the result is the same whatever closing
    gives, and a close error of the response received shows as a log
    line, on the failing paths as well. *)
Theorem sendRequest_close_error_only_logged :
  forall (ext : Externals) (c : Client) (req endpointURL : string),
    (forall cl,
       fst (sendRequest (withClose cl c) req endpointURL)
       = fst (sendRequest c req endpointURL))
    /\ (forall r resp e,
          In (CallDo r) (snd (sendRequest c req endpointURL)) ->
          Do c r = Ok resp ->
          http.Close resp = Some e ->
          In (LogError ("Failed to close response body: " ++ e))
             (snd (sendRequest c req endpointURL))).
Proof.
  intros ext c req endpointURL. split.
  - intros cl. rewrite !sendRequest_cases.
    destruct (http_NewRequest "POST" (endpointURL ++ "/operations") req) as [r0|e];
      [|reflexivity].
    change (outgoing (withClose cl c) r0) with (outgoing c r0).
    simpl Do. now destruct (Do c (outgoing c r0)).
  - intros r resp e Hin HDo Hcl.
    destruct (sendRequest_sent _ _ _ _ Hin) as (r0 & Hr0 & ->).
    rewrite sendRequest_cases, Hr0, HDo. simpl. right.
    unfold closeResponseBody. rewrite Hcl. now left.
Qed.

Lemma sendRequest_close_error_only_logged_witness :
  In (LogError "Failed to close response body: already closed")
     (snd (sendRequest (ext := Sample.ext) Sample.down "payload"
             "https://a.example")).
Proof.
  apply (proj2 (sendRequest_close_error_only_logged Sample.ext Sample.down
                  "payload" "https://a.example")
           {| http.Method := "POST";
              http.URL := "https://a.example/operations";
              http.Header := [("Content-Type", "application/json");
                              ("Authorization", "Bearer t0")];
              http.Body := "payload" |}
           {| http.StatusCode := 503; http.ReadAll := Ok "busy";
              http.Close := Some "already closed" |}
           "already closed").
  - left. reflexivity.
  - reflexivity.
  - reflexivity.
Defined.

(** ** The builders, stage by stage *)

Section BuilderFacts.

Context {ext : Externals}.

Lemma ebind_logged_lift {A B} (m : A * list Event) (k : A -> result B) :
  ebind (logged m) (fun a => lift (k a)) = (k (fst m), snd m).
Proof. unfold ebind, logged, lift. simpl. now rewrite app_nil_r. Qed.

Lemma ebind_logged {A B} (m : A * list Event) (k : A -> Eff B) :
  ebind (logged m) k = (fst (k (fst m)), (snd m ++ snd (k (fst m)))%list).
Proof. reflexivity. Qed.

Lemma ebind_lift_ret {A} (r : result A) : ebind (lift r) (fun a => ret a) = (r, []).
Proof. now destruct r. Qed.

Lemma buildDeactivateRequest_cases did cfg o :
  buildDeactivateRequest did cfg o =
  match getSigner (deactivate.SigningKey o) (deactivate.SigningKeyID o) with
  | Err e => (Err e, [])
  | Ok (signer, publicKey) =>
      match getUniqueSuffix did with
      | Err e => (Err e, [])
      | Ok didSuffix =>
          let rv := if String.eqb (deactivate.RevealValue o) ""
                    then defaultRevealValue publicKey (models.MultiHashAlgorithm cfg)
                    else (deactivate.RevealValue o, []) in
          (client_NewDeactivateRequest
             {| client.d_DidSuffix := didSuffix;
                client.d_RevealValue := fst rv;
                client.d_RecoveryKey := publicKey;
                client.d_Signer := signer |}, snd rv)
      end
  end.
Proof.
  unfold buildDeactivateRequest.
  destruct (getSigner (deactivate.SigningKey o) (deactivate.SigningKeyID o))
    as [[signer publicKey]|e]; [rewrite ebind_lift_Ok | reflexivity].
  destruct (getUniqueSuffix did) as [didSuffix|e];
    [rewrite ebind_lift_Ok | reflexivity].
  destruct (String.eqb (deactivate.RevealValue o) "").
  - now rewrite ebind_logged_lift.
  - now rewrite ebind_ret.
Qed.

Lemma buildUpdateRequest_cases did cfg o :
  buildUpdateRequest did cfg o =
  match pubkey_GetPublicKeyJWK (update.NextUpdatePublicKey o) with
  | Err e => (Err ("failed to get next update key : " ++ e), [])
  | Ok nextUpdateKey =>
  match commitment_GetCommitment nextUpdateKey (models.MultiHashAlgorithm cfg) with
  | Err e => (Err e, [])
  | Ok nextUpdateCommitment =>
  match getSigner (update.SigningKey o) (update.SigningKeyID o) with
  | Err e => (Err e, [])
  | Ok (signer, updateKey) =>
  match createUpdatePatches o with
  | Err e => (Err e, [])
  | Ok patches =>
  match getUniqueSuffix did with
  | Err e => (Err e, [])
  | Ok didSuffix =>
      let rv := if String.eqb (update.RevealValue o) ""
                then defaultRevealValue updateKey (models.MultiHashAlgorithm cfg)
                else (update.RevealValue o, []) in
      (client_NewUpdateRequest
         {| client.u_DidSuffix := didSuffix;
            client.u_RevealValue := fst rv;
            client.u_UpdateCommitment := nextUpdateCommitment;
            client.u_UpdateKey := updateKey;
            client.u_Patches := patches;
            client.u_MultihashCode := models.MultiHashAlgorithm cfg;
            client.u_Signer := signer |}, snd rv)
  end end end end end.
Proof.
  unfold buildUpdateRequest.
  destruct (pubkey_GetPublicKeyJWK (update.NextUpdatePublicKey o))
    as [nextUpdateKey|e]; [simpl wrapErr; rewrite ebind_lift_Ok | reflexivity].
  destruct (commitment_GetCommitment nextUpdateKey (models.MultiHashAlgorithm cfg))
    as [nextUpdateCommitment|e]; [rewrite ebind_lift_Ok | reflexivity].
  destruct (getSigner (update.SigningKey o) (update.SigningKeyID o))
    as [[signer updateKey]|e]; [rewrite ebind_lift_Ok | reflexivity].
  destruct (createUpdatePatches o) as [patches|e];
    [rewrite ebind_lift_Ok | reflexivity].
  destruct (getUniqueSuffix did) as [didSuffix|e];
    [rewrite ebind_lift_Ok | reflexivity].
  destruct (String.eqb (update.RevealValue o) "").
  - now rewrite ebind_logged_lift.
  - now rewrite ebind_ret.
Qed.

Lemma buildRecoverRequest_cases did cfg o :
  buildRecoverRequest did cfg o =
  match unwrapKeys (recovery.PublicKeys o) [] with
  | Err e => (Err e, [])
  | Ok parsedKeys =>
  match doc_JSONBytes {| doc.PublicKey_ := parsedKeys;
                         doc.Service := recovery.Services o |} with
  | Err e => (Err ("failed to get document bytes : " ++ e), [])
  | Ok docBytes =>
  match getCommitment cfg o with
  | Err e => (Err e, [])
  | Ok (nextRecoveryCommitment, nextUpdateCommitment) =>
  match getSigner (recovery.SigningKey o) (recovery.SigningKeyID o) with
  | Err e => (Err e, [])
  | Ok (signer, recoveryKey) =>
  match getUniqueSuffix did with
  | Err e => (Err e, [])
  | Ok didSuffix =>
      let rv := if String.eqb (recovery.RevealValue o) ""
                then defaultRevealValue recoveryKey (models.MultiHashAlgorithm cfg)
                else (recovery.RevealValue o, []) in
      (wrapErr "failed to create sidetree request: "
         (client_NewRecoverRequest
            {| client.r_DidSuffix := didSuffix;
               client.r_RevealValue := fst rv;
               client.r_OpaqueDocument := docBytes;
               client.r_RecoveryCommitment := nextRecoveryCommitment;
               client.r_UpdateCommitment := nextUpdateCommitment;
               client.r_MultihashCode := models.MultiHashAlgorithm cfg;
               client.r_Signer := signer;
               client.r_RecoveryKey := recoveryKey |}), snd rv)
  end end end end end.
Proof.
  unfold buildRecoverRequest.
  destruct (unwrapKeys (recovery.PublicKeys o) []) as [parsedKeys|e];
    [rewrite ebind_lift_Ok | reflexivity].
  destruct (doc_JSONBytes _) as [docBytes|e];
    [simpl wrapErr; rewrite ebind_lift_Ok | reflexivity].
  destruct (getCommitment cfg o) as [[rc uc]|e];
    [rewrite ebind_lift_Ok | reflexivity].
  destruct (getSigner (recovery.SigningKey o) (recovery.SigningKeyID o))
    as [[signer recoveryKey]|e]; [rewrite ebind_lift_Ok | reflexivity].
  destruct (getUniqueSuffix did) as [didSuffix|e];
    [rewrite ebind_lift_Ok | reflexivity].
  destruct (String.eqb (recovery.RevealValue o) "").
  - rewrite ebind_logged, ebind_lift_ret. simpl. now rewrite app_nil_r.
  - rewrite ebind_ret. now rewrite ebind_lift_ret.
Qed.

Lemma defaultRevealValue_logs jwk code :
  forallb isLog (snd (defaultRevealValue jwk code)) = true.
Proof. unfold defaultRevealValue. now destruct (commitment_GetRevealValue jwk code). Qed.

(** A builder calls no collaborator outside the process: it only logs. *)
Lemma buildOf_logs op did cfg : forallb isLog (snd (buildOf op did cfg)) = true.
Proof.
  destruct op as [opts|opts|opts]; simpl;
    [rewrite buildUpdateRequest_cases
    |rewrite buildRecoverRequest_cases
    |rewrite buildDeactivateRequest_cases];
    repeat match goal with
           | |- context [match ?r with Ok _ => _ | Err _ => _ end] =>
               destruct r; [|reflexivity]
           | |- context [match ?p with pair _ _ => _ end] => destruct p
           end;
    cbv zeta;
    match goal with
    | |- context [String.eqb ?a ?b] => destruct (String.eqb a b)
    end; simpl; auto using defaultRevealValue_logs.
Qed.

Lemma getCommitment_Ok_inv cfg o rc uc :
  getCommitment cfg o = Ok (rc, uc) ->
  exists kr ku,
    pubkey_GetPublicKeyJWK (recovery.NextRecoveryPublicKey o) = Ok kr /\
    pubkey_GetPublicKeyJWK (recovery.NextUpdatePublicKey o) = Ok ku /\
    commitment_GetCommitment kr (models.MultiHashAlgorithm cfg) = Ok rc /\
    commitment_GetCommitment ku (models.MultiHashAlgorithm cfg) = Ok uc.
Proof.
  unfold getCommitment.
  destruct (pubkey_GetPublicKeyJWK (recovery.NextRecoveryPublicKey o)) as [kr|e];
    simpl; [|discriminate].
  destruct (pubkey_GetPublicKeyJWK (recovery.NextUpdatePublicKey o)) as [ku|e];
    simpl; [|discriminate].
  destruct (commitment_GetCommitment kr _) as [rc'|e] eqn:Hr; simpl; [|discriminate].
  destruct (commitment_GetCommitment ku _) as [uc'|e] eqn:Hu; simpl; [|discriminate].
  intros [= <- <-]. now exists kr, ku.
Qed.

End BuilderFacts.

Section ColonFacts.

Context {ext : Externals}.

Lemma builders_reject_did_without_colon_aux did op cfg :
  strings.lacks colon did = true ->
  exists e, buildOf op did cfg = (Err e, []).
Proof.
  intros H.
  destruct op as [opts|opts|opts]; simpl;
    [rewrite buildUpdateRequest_cases
    |rewrite buildRecoverRequest_cases
    |rewrite buildDeactivateRequest_cases];
    rewrite (getUniqueSuffix_no_colon _ H);
    repeat first
      [ solve [eexists; reflexivity]
      | match goal with
        | |- context [match ?r with Ok _ => _ | Err _ => _ end] => destruct r
        | |- context [match ?p with pair _ _ => _ end] => destruct p
        end ].
Qed.

End ColonFacts.

(** X6. No builder builds a request for a DID without colon: whatever
    the options and the configuration, the build fails, and it logs
    nothing. *)
Theorem builders_reject_did_without_colon :
  forall (ext : Externals) (did : string) (op : Operation)
         (cfg : models.SidetreeConfig),
    strings.lacks colon did = true ->
    exists e, buildOf op did cfg = (Err e, []).
Proof.
  intros ext did op cfg. apply builders_reject_did_without_colon_aux.
Qed.

Lemma builders_reject_did_without_colon_witness :
  exists e,
    buildOf (ext := Sample.ext)
      (OpDeactivate [fun _ => Sample.deactivateOpts "r1"]) "EiAx" Sample.sha256
    = (Err e, []).
Proof.
  apply (builders_reject_did_without_colon Sample.ext "EiAx"
           (OpDeactivate [fun _ => Sample.deactivateOpts "r1"]) Sample.sha256).
  reflexivity.
Defined.

(** X7. A successful Update build is the outcome of the request
    constructor on: the unique suffix of the DID, the commitment of the
    next update public key under the configured multihash algorithm, the
    signer and public JWK of the signing key, the assembled patches and the
    configured multihash code. A reveal value supplied in the options goes
    into the request unchanged and nothing is logged; without one, the
    request carries the default reveal value of the signing key, and the
    build logs what its derivation logged. *)
Theorem buildUpdateRequest_success :
  forall (ext : Externals) (did : string) (cfg : models.SidetreeConfig)
         (o : update.Opts) (req : string),
    fst (buildUpdateRequest did cfg o) = Ok req ->
    exists info nextUpdateKey,
      client_NewUpdateRequest info = Ok req /\
      getUniqueSuffix did = Ok (client.u_DidSuffix info) /\
      pubkey_GetPublicKeyJWK (update.NextUpdatePublicKey o) = Ok nextUpdateKey /\
      commitment_GetCommitment nextUpdateKey (models.MultiHashAlgorithm cfg)
        = Ok (client.u_UpdateCommitment info) /\
      getSigner (update.SigningKey o) (update.SigningKeyID o)
        = Ok (client.u_Signer info, client.u_UpdateKey info) /\
      createUpdatePatches o = Ok (client.u_Patches info) /\
      client.u_MultihashCode info = models.MultiHashAlgorithm cfg /\
      (update.RevealValue o <> "" ->
       client.u_RevealValue info = update.RevealValue o /\
       snd (buildUpdateRequest did cfg o) = []) /\
      (update.RevealValue o = "" ->
       (client.u_RevealValue info, snd (buildUpdateRequest did cfg o))
       = defaultRevealValue (client.u_UpdateKey info)
           (models.MultiHashAlgorithm cfg)).
Proof.
  intros ext did cfg o req. rewrite buildUpdateRequest_cases.
  destruct (pubkey_GetPublicKeyJWK (update.NextUpdatePublicKey o))
    as [nextUpdateKey|e]; [|discriminate].
  destruct (commitment_GetCommitment nextUpdateKey (models.MultiHashAlgorithm cfg))
    as [commitment|e] eqn:Hc; [|discriminate].
  destruct (getSigner (update.SigningKey o) (update.SigningKeyID o))
    as [[signer updateKey]|e]; [|discriminate].
  destruct (createUpdatePatches o) as [patches|e]; [|discriminate].
  destruct (getUniqueSuffix did) as [didSuffix|e]; [|discriminate].
  cbv zeta. simpl fst at 1. intros H.
  eexists _, nextUpdateKey. split; [exact H|]. simpl.
  repeat (split; [first [reflexivity | eassumption]|]).
  destruct (String.eqb_spec (update.RevealValue o) "") as [E|E]; split;
    intros E'; try contradiction; try (now split).
  now destruct (defaultRevealValue updateKey (models.MultiHashAlgorithm cfg)).
Qed.

Lemma buildUpdateRequest_success_witness :
  exists info nextUpdateKey,
    client_NewUpdateRequest (Externals := Sample.ext) info
      = Ok "update:EiAx:reveal(pub)" /\
    getUniqueSuffix "did:trustbloc:EiAx" = Ok (client.u_DidSuffix info) /\
    pubkey_GetPublicKeyJWK (Externals := Sample.ext) (Some Sample.nextUpdatePub)
      = Ok nextUpdateKey /\
    commitment_GetCommitment (Externals := Sample.ext) nextUpdateKey 18
      = Ok (client.u_UpdateCommitment info).
Proof.
  destruct (@buildUpdateRequest_success Sample.ext "did:trustbloc:EiAx"
              Sample.sha256 Sample.updateOpts "update:EiAx:reveal(pub)" eq_refl)
    as (info & k & H1 & H2 & H3 & H4 & _).
  now exists info, k.
Defined.

(** X8. A successful Recover build is the outcome of the request
    constructor on: the unique suffix of the DID, the document bytes of the
    unwrapped keys and the services, the commitment of the next recovery
    public key as recovery commitment and that of the next update public key
    as update commitment (both under the configured multihash algorithm),
    the signer and public JWK of the signing key; the reveal value is the
    one supplied or, without one, the default one of the signing key. *)
Theorem buildRecoverRequest_success :
  forall (ext : Externals) (did : string) (cfg : models.SidetreeConfig)
         (o : recovery.Opts) (req : string),
    fst (buildRecoverRequest did cfg o) = Ok req ->
    exists info parsedKeys nextRecoveryKey nextUpdateKey,
      client_NewRecoverRequest info = Ok req /\
      getUniqueSuffix did = Ok (client.r_DidSuffix info) /\
      unwrapKeys (recovery.PublicKeys o) [] = Ok parsedKeys /\
      doc_JSONBytes {| doc.PublicKey_ := parsedKeys;
                       doc.Service := recovery.Services o |}
        = Ok (client.r_OpaqueDocument info) /\
      pubkey_GetPublicKeyJWK (recovery.NextRecoveryPublicKey o)
        = Ok nextRecoveryKey /\
      commitment_GetCommitment nextRecoveryKey (models.MultiHashAlgorithm cfg)
        = Ok (client.r_RecoveryCommitment info) /\
      pubkey_GetPublicKeyJWK (recovery.NextUpdatePublicKey o) = Ok nextUpdateKey /\
      commitment_GetCommitment nextUpdateKey (models.MultiHashAlgorithm cfg)
        = Ok (client.r_UpdateCommitment info) /\
      getSigner (recovery.SigningKey o) (recovery.SigningKeyID o)
        = Ok (client.r_Signer info, client.r_RecoveryKey info) /\
      client.r_MultihashCode info = models.MultiHashAlgorithm cfg /\
      (recovery.RevealValue o <> "" ->
       client.r_RevealValue info = recovery.RevealValue o /\
       snd (buildRecoverRequest did cfg o) = []) /\
      (recovery.RevealValue o = "" ->
       (client.r_RevealValue info, snd (buildRecoverRequest did cfg o))
       = defaultRevealValue (client.r_RecoveryKey info)
           (models.MultiHashAlgorithm cfg)).
Proof.
  intros ext did cfg o req. rewrite buildRecoverRequest_cases.
  destruct (unwrapKeys (recovery.PublicKeys o) []) as [parsedKeys|e];
    [|discriminate].
  destruct (doc_JSONBytes _) as [docBytes|e] eqn:Hd; [|discriminate].
  destruct (getCommitment cfg o) as [[rc uc]|e] eqn:Hc; [|discriminate].
  destruct (getCommitment_Ok_inv _ _ Hc) as (kr & ku & Hkr & Hku & Hrc & Huc).
  destruct (getSigner (recovery.SigningKey o) (recovery.SigningKeyID o))
    as [[signer recoveryKey]|e]; [|discriminate].
  destruct (getUniqueSuffix did) as [didSuffix|e]; [|discriminate].
  cbv zeta. simpl fst at 1. intros H. apply wrapErr_Ok in H.
  eexists _, parsedKeys, kr, ku. split; [exact H|]. simpl.
  repeat (split; [first [reflexivity | eassumption]|]).
  destruct (String.eqb_spec (recovery.RevealValue o) "") as [E|E]; split;
    intros E'; try contradiction; try (now split).
  now destruct (defaultRevealValue recoveryKey (models.MultiHashAlgorithm cfg)).
Qed.

Lemma buildRecoverRequest_success_witness :
  exists info,
    client_NewRecoverRequest (Externals := Sample.ext) info
      = Ok "recover:EiAx:reveal(pub):{raw-bytes}" /\
    client.r_RecoveryCommitment info = "commit(rec1)" /\
    client.r_MultihashCode info = 18%N.
Proof.
  destruct (@buildRecoverRequest_success Sample.ext "did:trustbloc:EiAx"
              Sample.sha256 (Sample.recoverOpts [Sample.docKey "raw-bytes"])
              "recover:EiAx:reveal(pub):{raw-bytes}" eq_refl)
    as (info & parsed & kr & ku & H1 & _ & _ & _ & Hkr & Hrc & _ & _ & _ & Hm & _).
  exists info. split; [exact H1|]. split; [|exact Hm].
  injection Hkr as <-. now injection Hrc as <-.
Defined.

(** X9. A successful Deactivate build is the outcome of the request
    constructor on the unique suffix of the DID and on the signer and
    public JWK of the signing key, the latter as recovery key; the reveal
    value is the one supplied or, without one, the default one of the
    signing key under the configured multihash algorithm. *)
Theorem buildDeactivateRequest_success :
  forall (ext : Externals) (did : string) (cfg : models.SidetreeConfig)
         (o : deactivate.Opts) (req : string),
    fst (buildDeactivateRequest did cfg o) = Ok req ->
    exists info,
      client_NewDeactivateRequest info = Ok req /\
      getUniqueSuffix did = Ok (client.d_DidSuffix info) /\
      getSigner (deactivate.SigningKey o) (deactivate.SigningKeyID o)
        = Ok (client.d_Signer info, client.d_RecoveryKey info) /\
      (deactivate.RevealValue o <> "" ->
       client.d_RevealValue info = deactivate.RevealValue o /\
       snd (buildDeactivateRequest did cfg o) = []) /\
      (deactivate.RevealValue o = "" ->
       (client.d_RevealValue info, snd (buildDeactivateRequest did cfg o))
       = defaultRevealValue (client.d_RecoveryKey info)
           (models.MultiHashAlgorithm cfg)).
Proof.
  intros ext did cfg o req. rewrite buildDeactivateRequest_cases.
  destruct (getSigner (deactivate.SigningKey o) (deactivate.SigningKeyID o))
    as [[signer publicKey]|e]; [|discriminate].
  destruct (getUniqueSuffix did) as [didSuffix|e]; [|discriminate].
  cbv zeta. simpl fst at 1. intros H.
  eexists. split; [exact H|]. simpl.
  repeat (split; [reflexivity|]).
  destruct (String.eqb_spec (deactivate.RevealValue o) "") as [E|E]; split;
    intros E'; try contradiction; try (now split).
  now destruct (defaultRevealValue publicKey (models.MultiHashAlgorithm cfg)).
Qed.

Lemma buildDeactivateRequest_success_witness :
  exists info,
    client_NewDeactivateRequest (Externals := Sample.ext) info
      = Ok "deactivate:EiAx:r1" /\
    client.d_RevealValue info = "r1" /\
    snd (buildDeactivateRequest (ext := Sample.ext) "did:trustbloc:EiAx"
           Sample.sha256 (Sample.deactivateOpts "r1")) = [].
Proof.
  destruct (@buildDeactivateRequest_success Sample.ext "did:trustbloc:EiAx"
              Sample.sha256 (Sample.deactivateOpts "r1") "deactivate:EiAx:r1"
              eq_refl)
    as (info & H1 & _ & _ & H2 & _).
  exists info. split; [exact H1|]. apply H2. discriminate.
Defined.

(** X10. [getCommitment] returns the commitment of the next recovery
    public key and that of the next update public key, in this order and
    both under the configured multihash algorithm, whenever both keys have
    a JWK form and both commitments are obtained, and only then. A key
    that has no JWK form fails it with "failed to get next recovery key : "
    or "failed to get next update key : " before the error, the recovery
    key being looked at first and both keys before any commitment is
    computed; an error of the commitment itself is returned as it is. *)
Theorem getCommitment_outcomes :
  forall (ext : Externals) (cfg : models.SidetreeConfig) (o : recovery.Opts),
    (forall kr ku rc uc,
       pubkey_GetPublicKeyJWK (recovery.NextRecoveryPublicKey o) = Ok kr ->
       pubkey_GetPublicKeyJWK (recovery.NextUpdatePublicKey o) = Ok ku ->
       commitment_GetCommitment kr (models.MultiHashAlgorithm cfg) = Ok rc ->
       commitment_GetCommitment ku (models.MultiHashAlgorithm cfg) = Ok uc ->
       getCommitment cfg o = Ok (rc, uc))
    /\ (forall rc uc,
          getCommitment cfg o = Ok (rc, uc) ->
          exists kr ku,
            pubkey_GetPublicKeyJWK (recovery.NextRecoveryPublicKey o) = Ok kr /\
            pubkey_GetPublicKeyJWK (recovery.NextUpdatePublicKey o) = Ok ku /\
            commitment_GetCommitment kr (models.MultiHashAlgorithm cfg) = Ok rc /\
            commitment_GetCommitment ku (models.MultiHashAlgorithm cfg) = Ok uc)
    /\ (forall e,
          pubkey_GetPublicKeyJWK (recovery.NextRecoveryPublicKey o) = Err e ->
          getCommitment cfg o = Err ("failed to get next recovery key : " ++ e))
    /\ (forall kr e,
          pubkey_GetPublicKeyJWK (recovery.NextRecoveryPublicKey o) = Ok kr ->
          pubkey_GetPublicKeyJWK (recovery.NextUpdatePublicKey o) = Err e ->
          getCommitment cfg o = Err ("failed to get next update key : " ++ e))
    /\ (forall kr ku e,
          pubkey_GetPublicKeyJWK (recovery.NextRecoveryPublicKey o) = Ok kr ->
          pubkey_GetPublicKeyJWK (recovery.NextUpdatePublicKey o) = Ok ku ->
          commitment_GetCommitment kr (models.MultiHashAlgorithm cfg) = Err e \/
          (exists rc,
             commitment_GetCommitment kr (models.MultiHashAlgorithm cfg) = Ok rc /\
             commitment_GetCommitment ku (models.MultiHashAlgorithm cfg) = Err e) ->
          getCommitment cfg o = Err e).
Proof.
  intros ext cfg o. split; [|split; [|split; [|split]]].
  - intros kr ku rc uc H1 H2 H3 H4. unfold getCommitment.
    rewrite H1. simpl. rewrite H2. simpl. rewrite H3. simpl. now rewrite H4.
  - intros rc uc. apply getCommitment_Ok_inv.
  - intros e H. unfold getCommitment. now rewrite H.
  - intros kr e H1 H2. unfold getCommitment. rewrite H1. simpl. now rewrite H2.
  - intros kr ku e H1 H2 H. unfold getCommitment. rewrite H1. simpl.
    rewrite H2. simpl. destruct H as [H|(rc & Hr & Hu)].
    + now rewrite H.
    + rewrite Hr. simpl. now rewrite Hu.
Qed.

Lemma getCommitment_outcomes_witness :
  getCommitment (ext := Sample.ext) Sample.sha256 (Sample.recoverOpts [])
    = Ok ("commit(rec1)", "commit(upd1)")
  /\ getCommitment (ext := Sample.ext) Sample.sha256
       (Sample.recoveryKeys None None None recovery.zero)
     = Err "failed to get next recovery key : unknown key type '%!s(<nil>)'"
  /\ getCommitment (ext := Sample.ext) {| models.MultiHashAlgorithm := 99 |}
       (Sample.recoverOpts [])
     = Err "algorithm not supported".
Proof.
  split; [|split].
  - apply (proj1 (getCommitment_outcomes Sample.ext Sample.sha256
                    (Sample.recoverOpts []))
             {| jws.Kty := "OKP"; jws.Crv := "Ed25519"; jws.X := "rec1"; jws.Y := "" |}
             {| jws.Kty := "OKP"; jws.Crv := "Ed25519"; jws.X := "upd1"; jws.Y := "" |});
      reflexivity.
  - apply (proj1 (proj2 (proj2 (getCommitment_outcomes Sample.ext Sample.sha256
                           (Sample.recoveryKeys None None None recovery.zero))))).
    reflexivity.
  - apply (proj2 (proj2 (proj2 (proj2 (getCommitment_outcomes Sample.ext
                                  {| models.MultiHashAlgorithm := 99 |}
                                  (Sample.recoverOpts [])))))
             {| jws.Kty := "OKP"; jws.Crv := "Ed25519"; jws.X := "rec1"; jws.Y := "" |}
             {| jws.Kty := "OKP"; jws.Crv := "Ed25519"; jws.X := "upd1"; jws.Y := "" |}).
    + reflexivity.
    + reflexivity.
    + left. reflexivity.
Defined.

(** X11. [getSigner] returns a signer only for an elliptic-curve or an
    Ed25519 private key: the signer is then the one built on that very key
    with tag "ES256", respectively "EdDSA", and the key identifier given,
    and the JWK returned is the one derived from the key's public key. *)
Theorem getSigner_success_inv :
  forall (ext : Externals) (signingkey : option crypto.PrivateKey)
         (keyID : string) (signer : client.Signer) (jwk : jws.JWK),
    getSigner signingkey keyID = Ok (signer, jwk) ->
    client.kid signer = keyID /\
    ((exists k,
        signingkey = Some (crypto.ECDSAPrivateKey k) /\
        signer = client.ecsigner_New k "ES256" keyID /\
        pubkey_GetPublicKeyJWK (Some (crypto.ECDSAPublicKey (ecdsa.Public k)))
          = Ok jwk)
     \/ (exists k,
           signingkey = Some (crypto.Ed25519PrivateKey k) /\
           signer = client.edsigner_New k "EdDSA" keyID /\
           pubkey_GetPublicKeyJWK
             (Some (crypto.Ed25519PublicKey (ed25519_Public k))) = Ok jwk)).
Proof.
  intros ext signingkey keyID signer jwk. unfold getSigner.
  destruct signingkey as [[k|k|t]|]; try discriminate.
  - destruct (pubkey_GetPublicKeyJWK _) as [j|e] eqn:Hj; simpl; [|discriminate].
    intros [= <- <-]. split; [reflexivity|]. left. now exists k.
  - destruct (pubkey_GetPublicKeyJWK _) as [j|e] eqn:Hj; simpl; [|discriminate].
    intros [= <- <-]. split; [reflexivity|]. right. now exists k.
Qed.

Lemma getSigner_success_inv_witness :
  client.kid (client.edsigner_New Sample.edKey "EdDSA" "key0") = "key0".
Proof.
  apply (@getSigner_success_inv Sample.ext (Some Sample.edPriv) "key0"
           (client.edsigner_New Sample.edKey "EdDSA" "key0") Sample.edJWK).
  reflexivity.
Defined.

(** ** More on the unwrapping loop, the suffix and the index *)

Section MoreFacts.

Context {ext : Externals}.

Lemma unwrapKeys_binary keys : forall acc,
  (forall k, In k keys -> exists e, jose_UnmarshalJSON (doc.Value k) = Err e) ->
  unwrapKeys keys acc = Ok (acc ++ keys)%list.
Proof.
  induction keys as [|k keys IH]; intros acc H; simpl.
  - now rewrite app_nil_r.
  - destruct (H k (or_introl eq_refl)) as [e He].
    rewrite (unwrapPubKeyJWK_skip _ He), IH.
    + now rewrite <- app_assoc.
    + intros k' Hin. apply H. now right.
Qed.

End MoreFacts.


(** X12. The loop that unwraps the supplied keys keeps their number, and
    leaves a list of keys none of which parses as a JWK exactly as it
    came. *)
Theorem unwrapKeys_keeps_binary_keys :
  forall (ext : Externals) (keys : list doc.PublicKey),
    (forall parsed, unwrapKeys keys [] = Ok parsed -> length parsed = length keys)
    /\ ((forall k, In k keys ->
           exists e, jose_UnmarshalJSON (doc.Value k) = Err e) ->
        unwrapKeys keys [] = Ok keys).
Proof.
  intros ext keys. split.
  - intros parsed H. destruct (unwrapKeys_Ok _ _ H) as (l & -> & HF).
    simpl. symmetry. now apply (Forall2_length HF).
  - intros H. now rewrite (unwrapKeys_binary keys [] H).
Qed.

Lemma unwrapKeys_keeps_binary_keys_witness :
  unwrapKeys (ext := Sample.ext)
    [Sample.docKey "raw-bytes"; Sample.docKey "{kty:OKP,crv:Ed25519}"] []
  = Ok [Sample.docKey "raw-bytes"; Sample.docKey "{kty:OKP,crv:Ed25519}"].
Proof.
  apply (proj2 (unwrapKeys_keeps_binary_keys Sample.ext
                  [Sample.docKey "raw-bytes";
                   Sample.docKey "{kty:OKP,crv:Ed25519}"])).
  intros k [<-|[<-|[]]]; eexists; reflexivity.
Defined.

(** X13. What [getUniqueSuffix] returns has no colon in it and is what
    follows a colon at the end of the identifier; and it fails only on an
    identifier without colon, with the identifier in the message. *)
Theorem getUniqueSuffix_inv :
  forall id : string,
    (forall suffix,
       getUniqueSuffix id = Ok suffix ->
       strings.lacks colon suffix = true /\
       exists pre, id = pre ++ ":" ++ suffix)
    /\ (forall e,
          getUniqueSuffix id = Err e ->
          strings.lacks colon id = true /\
          e = "unique suffix not provided in id [" ++ id ++ "]").
Proof.
  intros id. destruct (strings.lacks colon id) eqn:Hl.
  - rewrite (getUniqueSuffix_no_colon _ Hl). split; [discriminate|].
    now intros e [= <-].
  - destruct (split_last _ _ Hl) as (pre & suf & -> & Hsuf).
    rewrite (getUniqueSuffix_split pre _ Hsuf). split; [|discriminate].
    intros suffix [= <-]. split; [exact Hsuf | now exists pre].
Qed.

Lemma getUniqueSuffix_inv_witness :
  strings.lacks colon "EiAx" = true /\
  exists pre, "did:trustbloc:EiAx" = pre ++ ":" ++ "EiAx".
Proof.
  apply (proj1 (getUniqueSuffix_inv "did:trustbloc:EiAx") "EiAx").
  reflexivity.
Defined.


(** ** The three operations *)

Lemma getEndpoint_trace c domain endpoints :
  snd (getEndpoint c domain endpoints)
  = if String.eqb domain "" then [] else [CallGetEndpoints domain].
Proof.
  destruct (String.eqb_spec domain "") as [->|Hd].
  - now destruct endpoints.
  - rewrite (getEndpoint_domain c endpoints Hd).
    now destruct (GetEndpoints (endpointService_ c) domain) as [[|e rest]|err].
Qed.

Section OperationFacts.

Context {ext : Externals}.

Lemma pipeline_cases c domain endpoints pb ps build :
  pipeline c domain endpoints pb ps build =
  match fst (getEndpoint c domain endpoints) with
  | Err e => (Err e, snd (getEndpoint c domain endpoints))
  | Ok u =>
      match GetSidetreeConfig (configService_ c) u with
      | Err e => (Err e, (snd (getEndpoint c domain endpoints)
                          ++ [CallGetSidetreeConfig u])%list)
      | Ok cfg =>
          match fst (build cfg) with
          | Err e => (Err (pb ++ e),
                      (snd (getEndpoint c domain endpoints)
                       ++ [CallGetSidetreeConfig u] ++ snd (build cfg))%list)
          | Ok req =>
              (match fst (sendRequest c req u) with
               | Ok _ => Ok tt
               | Err e => Err (ps ++ e)
               end,
               (snd (getEndpoint c domain endpoints)
                ++ [CallGetSidetreeConfig u] ++ snd (build cfg)
                ++ snd (sendRequest c req u))%list)
          end
      end
  end.
Proof.
  unfold pipeline, ebind, call, wrapEff, emit, lift.
  destruct (getEndpoint c domain endpoints) as [[u|e] t0]; simpl;
    [|reflexivity].
  destruct (GetSidetreeConfig (configService_ c) u) as [cfg|e]; simpl;
    [|now rewrite ?app_nil_r].
  destruct (build cfg) as [[req|e] t1]; simpl; [|now rewrite ?app_nil_r].
  destruct (sendRequest c req u) as [[body|e] t2]; simpl; now rewrite ?app_nil_r.
Qed.

Lemma run_pipeline c did domain op :
  validated op = true ->
  run c did domain op
  = pipeline c domain (explicitEndpoints op) (buildPrefix op) (sendPrefix op)
      (buildOf op did).
Proof.
  destruct op as [opts|opts|opts]; simpl.
  - unfold UpdateDID.
    destruct (isNil (update.SigningKey (applyOptions update.zero opts)));
      [discriminate|].
    destruct (isNil (update.NextUpdatePublicKey (applyOptions update.zero opts)));
      [discriminate|]. reflexivity.
  - unfold RecoverDID, validateRecoverReq.
    destruct (isNil (recovery.NextRecoveryPublicKey
                       (applyOptions recovery.zero opts))); [discriminate|].
    destruct (isNil (recovery.NextUpdatePublicKey
                       (applyOptions recovery.zero opts))); [discriminate|].
    destruct (isNil (recovery.SigningKey (applyOptions recovery.zero opts)));
      [discriminate|].
    intros _. now rewrite ebind_lift_Ok.
  - unfold DeactivateDID.
    destruct (isNil (deactivate.SigningKey (applyOptions deactivate.zero opts)));
      [discriminate|]. reflexivity.
Qed.

Lemma run_invalid c did domain op :
  validated op = false -> exists e, run c did domain op = (Err e, []).
Proof.
  destruct op as [opts|opts|opts]; simpl.
  - unfold UpdateDID.
    destruct (isNil (update.SigningKey (applyOptions update.zero opts)));
      [now eexists|].
    destruct (isNil (update.NextUpdatePublicKey (applyOptions update.zero opts)));
      [now eexists | discriminate].
  - unfold RecoverDID, validateRecoverReq.
    destruct (isNil (recovery.NextRecoveryPublicKey
                       (applyOptions recovery.zero opts))); [now eexists|].
    destruct (isNil (recovery.NextUpdatePublicKey
                       (applyOptions recovery.zero opts))); [now eexists|].
    destruct (isNil (recovery.SigningKey (applyOptions recovery.zero opts)));
      [now eexists | discriminate].
  - unfold DeactivateDID.
    destruct (isNil (deactivate.SigningKey (applyOptions deactivate.zero opts)));
      [now eexists | discriminate].
Qed.

End OperationFacts.

Lemma operationTrace_nil : operationTrace [].
Proof.
  exists [], [], [], [], []. repeat split; try reflexivity; now left.
Qed.

(** X15. Whatever the collaborators answer, an operation (update,
    recover or deactivate) calls discovery at most once, then fetches the
    configuration at most once, then builds (which can only log), then
    sends at most one HTTP request, after which only log lines follow:
    nothing is called twice and nothing is tried again. *)
Theorem operation_trace_shape :
  forall (ext : Externals) (c : Client) (did domain : string) (op : Operation),
    operationTrace (snd (run c did domain op)).
Proof.
  intros ext c did domain op.
  destruct (validated op) eqn:Hv.
  2:{ destruct (run_invalid c did domain op Hv) as [e ->]. apply operationTrace_nil. }
  rewrite (run_pipeline c did domain op Hv), pipeline_cases.
  assert (Hd : atMostOne isCallGetEndpoints
                 (snd (getEndpoint c domain (explicitEndpoints op)))).
  { rewrite getEndpoint_trace. destruct (String.eqb domain "");
      [now left | right; now eexists]. }
  destruct (fst (getEndpoint c domain (explicitEndpoints op))) as [u|e].
  2:{ exists (snd (getEndpoint c domain (explicitEndpoints op))), [], [], [], [].
      simpl. rewrite app_nil_r.
      repeat split; try reflexivity; try exact Hd; now left. }
  destruct (GetSidetreeConfig (configService_ c) u) as [cfg|e].
  2:{ exists (snd (getEndpoint c domain (explicitEndpoints op))),
        [CallGetSidetreeConfig u], [], [], [].
      simpl. repeat split; try reflexivity; try exact Hd;
        [right; now eexists | now left]. }
  pose proof (buildOf_logs op did cfg) as Hl.
  destruct (fst (buildOf op did cfg)) as [req|e].
  2:{ exists (snd (getEndpoint c domain (explicitEndpoints op))),
        [CallGetSidetreeConfig u], (snd (buildOf op did cfg)), [], [].
      simpl. rewrite app_nil_r.
      repeat split; try reflexivity; try exact Hd; try exact Hl;
        [right; now eexists | now left]. }
  destruct (sendRequest_shape c req u) as (request & closing & -> & H1 & H2 & H3).
  exists (snd (getEndpoint c domain (explicitEndpoints op))),
    [CallGetSidetreeConfig u], (snd (buildOf op did cfg)), request, closing.
  simpl. repeat split; try reflexivity; try assumption.
  right; now eexists.
Qed.

(** X16. An operation returns without error only when an HTTP request
    went out and the HTTP client answered it with status 200. *)
Theorem operation_success_means_200 :
  forall (ext : Externals) (c : Client) (did domain : string) (op : Operation),
    fst (run c did domain op) = Ok tt ->
    exists r resp,
      In (CallDo r) (snd (run c did domain op)) /\
      Do c r = Ok resp /\
      http.StatusCode resp = 200.
Proof.
  intros ext c did domain op.
  destruct (validated op) eqn:Hv.
  2:{ destruct (run_invalid c did domain op Hv) as [e ->]. discriminate. }
  rewrite (run_pipeline c did domain op Hv), pipeline_cases.
  destruct (fst (getEndpoint c domain (explicitEndpoints op))) as [u|e];
    [|discriminate].
  destruct (GetSidetreeConfig (configService_ c) u) as [cfg|e]; [|discriminate].
  destruct (fst (buildOf op did cfg)) as [req|e]; [|discriminate].
  destruct (fst (sendRequest c req u)) as [body|e] eqn:Hs; [|discriminate].
  intros _. destruct (sendRequest_Ok_inv _ _ _ Hs) as (r & resp & Ht & HDo & H200 & _).
  exists r, resp. split; [|now split].
  rewrite Ht. apply in_or_app. right. apply in_cons.
  apply in_or_app. right. now left.
Qed.

Lemma operation_success_means_200_witness :
  exists r resp,
    In (CallDo r)
       (snd (run (ext := Sample.ext) Sample.c "did:trustbloc:EiAx" ""
               (OpDeactivate [fun _ => Sample.deactivateOpts "r1"]))) /\
    Do Sample.c r = Ok resp /\
    http.StatusCode resp = 200.
Proof.
  apply (operation_success_means_200 Sample.ext Sample.c "did:trustbloc:EiAx" ""
           (OpDeactivate [fun _ => Sample.deactivateOpts "r1"])).
  reflexivity.
Defined.

(** X17. Once the required keys are there, a failure to resolve the
    endpoint or to fetch the configuration ends the operation with that very
    error, not wrapped: after a failed resolution the configuration is not
    fetched, and after a failed fetch nothing is built or sent. *)
Theorem operation_resolution_or_config_failure :
  forall (ext : Externals) (c : Client) (did domain : string) (op : Operation),
    validated op = true ->
    (forall e,
       fst (getEndpoint c domain (explicitEndpoints op)) = Err e ->
       run c did domain op
       = (Err e, snd (getEndpoint c domain (explicitEndpoints op))))
    /\ (forall u e,
          fst (getEndpoint c domain (explicitEndpoints op)) = Ok u ->
          GetSidetreeConfig (configService_ c) u = Err e ->
          run c did domain op
          = (Err e, (snd (getEndpoint c domain (explicitEndpoints op))
                     ++ [CallGetSidetreeConfig u])%list)).
Proof.
  intros ext c did domain op Hv.
  rewrite (run_pipeline c did domain op Hv), pipeline_cases. split.
  - intros e ->. reflexivity.
  - intros u e -> ->. reflexivity.
Qed.

Lemma operation_resolution_or_config_failure_witness :
  run (ext := Sample.ext) Sample.c "did:trustbloc:EiAx" "down.example"
    (OpDeactivate [fun _ => Sample.deactivateOpts "r1"])
  = (Err "failed to get endpoints: no stakeholders",
     [CallGetEndpoints "down.example"]).
Proof.
  apply (proj1 (operation_resolution_or_config_failure Sample.ext Sample.c
                  "did:trustbloc:EiAx" "down.example"
                  (OpDeactivate [fun _ => Sample.deactivateOpts "r1"])
                  eq_refl)).
  reflexivity.
Defined.

(** X18. When the build fails, the operation returns the build's error
    after "failed to build update request: " (update) or "failed to build
    sidetree request: " (recover, deactivate), and no HTTP request is
    sent, although the configuration was fetched. *)
Theorem operation_build_failure :
  forall (ext : Externals) (c : Client) (did domain : string) (op : Operation)
         (u : string) (cfg : models.SidetreeConfig) (e : error),
    validated op = true ->
    fst (getEndpoint c domain (explicitEndpoints op)) = Ok u ->
    GetSidetreeConfig (configService_ c) u = Ok cfg ->
    fst (buildOf op did cfg) = Err e ->
    fst (run c did domain op) = Err (buildPrefix op ++ e) /\
    In (CallGetSidetreeConfig u) (snd (run c did domain op)) /\
    forall r, ~ In (CallDo r) (snd (run c did domain op)).
Proof.
  intros ext c did domain op u cfg e Hv Hu Hc He.
  rewrite (run_pipeline c did domain op Hv), pipeline_cases, Hu, Hc, He.
  split; [reflexivity|]. simpl. split.
  - apply in_or_app. right. now left.
  - intros r Hin. apply in_app_or in Hin as [Hin|[Hin|Hin]].
    + rewrite getEndpoint_trace in Hin.
      destruct (String.eqb domain ""); [destruct Hin|].
      destruct Hin as [Hin|[]]. discriminate Hin.
    + discriminate Hin.
    + pose proof (buildOf_logs op did cfg) as Hl.
      rewrite forallb_forall in Hl. specialize (Hl _ Hin). discriminate Hl.
Qed.

Lemma operation_build_failure_witness :
  fst (run (ext := Sample.ext) Sample.c "EiAx" ""
         (OpDeactivate [fun _ => Sample.deactivateOpts "r1"]))
  = Err "failed to build sidetree request: unique suffix not provided in id [EiAx]".
Proof.
  apply (@operation_build_failure Sample.ext Sample.c "EiAx" ""
           (OpDeactivate [fun _ => Sample.deactivateOpts "r1"])
           "https://a.example" Sample.sha256
           "unique suffix not provided in id [EiAx]");
    reflexivity.
Defined.

(** X19. When the build succeeds, the operation posts the request that
    was built to the endpoint that was resolved, the one whose
    configuration was used for the build; it returns no error when the send
    succeeds, and otherwise the send's error after "failed to send create
    sidetree request: " (update), "failed to send recover sidetree
    request: " (recover) or "failed to send deactivate sidetree request: "
    (deactivate). *)
Theorem operation_posts_built_request :
  forall (ext : Externals) (c : Client) (did domain : string) (op : Operation)
         (u : string) (cfg : models.SidetreeConfig) (req : string),
    validated op = true ->
    fst (getEndpoint c domain (explicitEndpoints op)) = Ok u ->
    GetSidetreeConfig (configService_ c) u = Ok cfg ->
    fst (buildOf op did cfg) = Ok req ->
    snd (run c did domain op)
    = (snd (getEndpoint c domain (explicitEndpoints op))
       ++ [CallGetSidetreeConfig u] ++ snd (buildOf op did cfg)
       ++ snd (sendRequest c req u))%list
    /\ (forall body, fst (sendRequest c req u) = Ok body ->
          fst (run c did domain op) = Ok tt)
    /\ (forall e, fst (sendRequest c req u) = Err e ->
          fst (run c did domain op) = Err (sendPrefix op ++ e)).
Proof.
  intros ext c did domain op u cfg req Hv Hu Hc Hb.
  rewrite (run_pipeline c did domain op Hv), pipeline_cases, Hu, Hc, Hb.
  split; [reflexivity|]. simpl. split.
  - intros body ->. reflexivity.
  - intros e ->. reflexivity.
Qed.

Lemma operation_posts_built_request_witness :
  fst (run (ext := Sample.ext) Sample.down "did:trustbloc:EiAx" "b.example"
         (OpUpdate [fun _ => Sample.updateOpts]))
  = Err ("failed to send create sidetree request: "
         ++ "got unexpected response from https://b.example status '503' body busy").
Proof.
  apply (proj2 (proj2 (@operation_posts_built_request Sample.ext Sample.down
                         "did:trustbloc:EiAx" "b.example"
                         (OpUpdate [fun _ => Sample.updateOpts])
                         "https://b.example" Sample.sha256
                         "update:EiAx:reveal(pub)"
                         eq_refl eq_refl eq_refl eq_refl))).
  reflexivity.
Defined.

(** X20. For a DID without colon no operation ever sends an HTTP
    request, whatever the options, the domain and the collaborators. *)
Theorem malformed_did_is_never_posted :
  forall (ext : Externals) (c : Client) (did domain : string) (op : Operation),
    strings.lacks colon did = true ->
    (exists e, fst (run c did domain op) = Err e) /\
    forall r, ~ In (CallDo r) (snd (run c did domain op)).
Proof.
  intros ext c did domain op Hl.
  assert (Hge : forall r,
             ~ In (CallDo r) (snd (getEndpoint c domain (explicitEndpoints op)))).
  { intros r. rewrite getEndpoint_trace.
    destruct (String.eqb domain ""); simpl; [tauto|].
    intros [H|[]]. discriminate H. }
  destruct (validated op) eqn:Hv.
  2:{ destruct (run_invalid c did domain op Hv) as [e ->].
      split; [now exists e | simpl; tauto]. }
  rewrite (run_pipeline c did domain op Hv), pipeline_cases.
  destruct (fst (getEndpoint c domain (explicitEndpoints op))) as [u|e].
  2:{ split; [now exists e | exact Hge]. }
  destruct (GetSidetreeConfig (configService_ c) u) as [cfg|e].
  2:{ split; [now exists e|]. intros r Hin. simpl in Hin.
      apply in_app_or in Hin as [Hin|[Hin|[]]]; [now apply (Hge r) | discriminate Hin]. }
  destruct (@builders_reject_did_without_colon_aux ext did op cfg Hl) as [e He].
  rewrite He. simpl. split; [now eexists|].
  intros r Hin.
  apply in_app_or in Hin as [Hin|[Hin|[]]]; [now apply (Hge r) | discriminate Hin].
Qed.

Lemma malformed_did_is_never_posted_witness :
  (exists e,
     fst (run (ext := Sample.ext) Sample.c "EiAx" "b.example"
            (OpRecover [fun _ => Sample.recoverOpts []])) = Err e) /\
  forall r,
    ~ In (CallDo r)
        (snd (run (ext := Sample.ext) Sample.c "EiAx" "b.example"
                (OpRecover [fun _ => Sample.recoverOpts []]))).
Proof.
  apply (malformed_did_is_never_posted Sample.ext Sample.c "EiAx" "b.example"
           (OpRecover [fun _ => Sample.recoverOpts []])).
  reflexivity.
Defined.

(** X21. [getEndpoint] never indexes an empty list: it returns a URL
    only as the URL of the first endpoint of a list that is not empty, the
    explicit one when the domain is empty and the discovered one otherwise,
    and the index error of [endpoints[0]] is never its outcome. *)
Theorem getEndpoint_success_inv :
  forall (c : Client) (domain : string) (explicit : list models.Endpoint),
    fst (getEndpoint c domain explicit)
      <> Err "runtime error: index out of range [0] with length 0"
    /\ (forall url,
          fst (getEndpoint c domain explicit) = Ok url ->
          exists e rest,
            url = models.URL e /\
            ((domain = "" /\ explicit = e :: rest) \/
             (domain <> "" /\
              GetEndpoints (endpointService_ c) domain = Ok (e :: rest)))).
Proof.
  intros c domain explicit. split.
  - destruct (String.eqb_spec domain "") as [->|Hd].
    + destruct explicit; simpl; discriminate.
    + rewrite (getEndpoint_domain c explicit Hd).
      destruct (GetEndpoints (endpointService_ c) domain) as [[|e rest]|err];
        simpl; discriminate.
  - intros url. destruct (String.eqb_spec domain "") as [->|Hd].
    + destruct explicit as [|e rest]; simpl; [discriminate|].
      intros [= <-]. exists e, rest. split; [reflexivity|]. now left.
    + rewrite (getEndpoint_domain c explicit Hd).
      destruct (GetEndpoints (endpointService_ c) domain) as [[|e rest]|err];
        simpl; try discriminate.
      intros [= <-]. exists e, rest. split; [reflexivity|]. now right.
Qed.

Lemma getEndpoint_success_inv_witness :
  exists e rest,
    "https://b.example" = models.URL e /\
    (("b.example" = "" /\ [Sample.endpointA] = e :: rest) \/
     ("b.example" <> "" /\
      GetEndpoints (endpointService_ Sample.c) "b.example" = Ok (e :: rest))).
Proof.
  apply (proj2 (getEndpoint_success_inv Sample.c "b.example" [Sample.endpointA])
           "https://b.example").
  reflexivity.
Defined.

(** ** An identifier that ends in a colon *)

Section TrailingColon.

Context {ext : Externals}.




End TrailingColon.



